(** * Web_view: allocation and rotation engine of [main_final.py]

    A shallow embedding of the display controller of [src/main_final.py]:
    URL normalisation ([format_url]), the grid planner
    ([get_grid_for_slots]), the single-screen rolling window
    ([SingleScreenWindow]), the multi-screen grid window
    ([MultiScreenWindow]), the controller ([MainController.apply_mode]) and
    the settings form ([SettingsWindow.save_settings]), followed by the rest
    of the settings window, the configuration file ([load_config],
    [save_config]) and the controllers of the two earlier revisions
    [main.py] (module [V1]) and [main_update.py] (module [V2]).

    Conventions.
    - A Python [str] is a [string]; a character is read as a code point
      below 256, and the white space of [str.strip] is the Unicode white
      space in that range.
    - Python integers that come from configuration or user input
      ([slots_per_screen], [refresh_interval], screen geometry) are [Z];
      list lengths, list indices and loop counters that start at [0] and
      only grow are [nat].
    - A raised exception is the result [None] of the error monad [M];
      the calls made on the Qt widgets that carry content (title labels and
      web views) are collected in a trace of [Call]s. *)

From Stdlib Require Import ZArith List String Ascii Bool Arith Lia.
From Stdlib Require Import DecimalString DecimalPos.
Import ListNotations.

Local Open Scope string_scope.
Local Open Scope list_scope.
Local Open Scope nat_scope.

(* ================================================================= *)
(** ** Python strings *)

Module PyStr.

(** White space of [str.strip()] and [str.isspace()] among the code points
    below 256: TAB..CR, FS..US, SPACE, NEL and NBSP. *)
Definition is_space (c : ascii) : bool :=
  let n := nat_of_ascii c in
  ((9 <=? n) && (n <=? 13)) || ((28 <=? n) && (n <=? 31))
  || (n =? 32) || (n =? 133) || (n =? 160).

Fixpoint lstrip (s : string) : string :=
  match s with
  | EmptyString => EmptyString
  | String c s' => if is_space c then lstrip s' else s
  end.

Fixpoint rstrip (s : string) : string :=
  match s with
  | EmptyString => EmptyString
  | String c s' =>
      match rstrip s' with
      | EmptyString => if is_space c then EmptyString else String c EmptyString
      | r => String c r
      end
  end.

(** [s.strip()] *)
Definition strip (s : string) : string := rstrip (lstrip s).

(** [s.startswith(p)] *)
Definition startswith (s p : string) : bool := String.prefix p s.

Fixpoint drop (n : nat) (s : string) : string :=
  match n, s with
  | O, _ => s
  | S _, EmptyString => EmptyString
  | S n', String _ s' => drop n' s'
  end.

(** [s.split(sep, 1)] when [sep in s]: the text before the first
    occurrence of [sep] and the text after it; [None] when [sep] does not
    occur in [s]. *)
Fixpoint split_once (sep s : string) : option (string * string) :=
  if String.prefix sep s then Some (EmptyString, drop (String.length sep) s)
  else
    match s with
    | EmptyString => None
    | String c s' =>
        match split_once sep s' with
        | Some (a, b) => Some (String c a, b)
        | None => None
        end
    end.

Definition digit_of (c : ascii) : option Z :=
  let n := nat_of_ascii c in
  if (48 <=? n) && (n <=? 57) then Some (Z.of_nat (n - 48)) else None.

(** The digit part of a decimal literal accepted by [int(str)]: digits,
    with single underscores allowed between two digits. *)
Fixpoint int_digits (s : string) (acc : Z) (after_digit : bool) : option Z :=
  match s with
  | EmptyString => if after_digit then Some acc else None
  | String c s' =>
      match digit_of c with
      | Some d => int_digits s' (10 * acc + d) true
      | None =>
          if Ascii.eqb c "_"%char && after_digit
          then int_digits s' acc false
          else None
      end
  end.

(** [int(s)] for a string [s]: [None] stands for [ValueError]. *)
Definition py_int (s : string) : option Z :=
  match strip s with
  | String "+"%char r => int_digits r 0 false
  | String "-"%char r => option_map Z.opp (int_digits r 0 false)
  | t => int_digits t 0 false
  end.

End PyStr.

(* ================================================================= *)
(** ** [format_url] and [get_grid_for_slots] *)

Definition format_url (url_str : string) : string :=
  let url_str := PyStr.strip url_str in
  if negb (PyStr.startswith url_str "http://" || PyStr.startswith url_str "https://")
  then "https://" ++ url_str
  else url_str.

Definition get_grid_for_slots (slots : Z) : nat * nat :=
  if (slots <=? 1)%Z then (1, 1)
  else if (slots =? 2)%Z then (1, 2)
  else if (slots <=? 4)%Z then (2, 2)
  else if (slots <=? 6)%Z then (2, 3)
  else if (slots <=? 9)%Z then (3, 3)
  else if (slots <=? 12)%Z then (3, 4)
  else if (slots <=? 16)%Z then (4, 4)
  else (4, 4).

(* ================================================================= *)
(** ** Data model, exceptions and the trace of widget calls *)

(** A page of the configuration: the dict [{"title": ..., "url": ...}]. *)
Record Page := mkPage { title : string; url : string }.

(** [screen.geometry()] of one [QScreen]. *)
Record Screen := mkScreen { geo_x : Z; geo_y : Z; geo_width : Z; geo_height : Z }.

(** Calls on the widgets that carry content.  A web view is named by its
    position in the creating window's [views] list (the only web view of a
    single-screen window is view [0]). *)
Inductive Call :=
| LabelSetText (text : string)
| ViewSetZoomFactor (view : nat)
| ViewSetUrl (view : nat) (u : string)
| ViewReload (view : nat).

(** The error monad: [None] is a raised exception ([IndexError]). *)
Definition M (A : Type) : Type := option A.
Definition ret {A} (a : A) : M A := Some a.
Definition raise {A} : M A := None.
Definition bind {A B} (m : M A) (k : A -> M B) : M B :=
  match m with
  | Some a => k a
  | None => None
  end.

Notation "x <- m ;; k" := (bind m (fun x => k))
  (at level 61, m at next level, right associativity).
Notation "' p <- m ;; k" := (bind m (fun p => k))
  (at level 61, p pattern, m at next level, right associativity).

(** A [for] loop whose body may raise. *)
Fixpoint foldM {A S} (body : S -> A -> M S) (l : list A) (st : S) : M S :=
  match l with
  | [] => ret st
  | a :: l' => st' <- body st a ;; foldM body l' st'
  end.

Definition is_empty {A} (l : list A) : bool :=
  match l with
  | [] => true
  | _ :: _ => false
  end.

(* ================================================================= *)
(** ** [SingleScreenWindow] *)

Module SingleScreenWindow.

Record t := mk {
  pages : list Page;
  refresh_interval : Z;
  current_index : nat;
  title_label : string;          (* text of the title label *)
  webview : option string        (* URL loaded in the web view, if any *)
}.

(** The timer's tick handler. *)
Definition show_next_page (self : t) : M (list Call * t) :=
  if is_empty (pages self) then ret ([], self)
  else
    match nth_error (pages self) (current_index self) with
    | None => raise
    | Some page =>
        ret ([LabelSetText (title page); ViewSetUrl 0 (format_url (url page))],
             {| pages := pages self;
                refresh_interval := refresh_interval self;
                current_index := (current_index self + 1) mod List.length (pages self);
                title_label := title page;
                webview := Some (format_url (url page)) |})
    end.

(** The object as [__init__] leaves it just before its last statement. *)
Definition fresh (pages : list Page) (refresh_interval : Z) : t :=
  {| pages := pages;
     refresh_interval := refresh_interval;
     current_index := 0;
     title_label := "";
     webview := None |}.

(** [__init__]: seeds [current_index = 0], starts the timer and calls
    [show_next_page] once itself. *)
Definition init (pages : list Page) (refresh_interval : Z) : M (list Call * t) :=
  show_next_page (fresh pages refresh_interval).

(** The window after [k] more calls of the tick handler. *)
Fixpoint after_ticks (k : nat) (self : t) : M t :=
  match k with
  | O => ret self
  | S k' => '(_, self') <- show_next_page self ;; after_ticks k' self'
  end.

End SingleScreenWindow.

(* ================================================================= *)
(** ** [MultiScreenWindow] *)

Module MultiScreenWindow.

(** A widget placed in a grid cell. *)
Inductive Cell :=
| Container (title_label : string) (view : nat)
| NoSignalWidget.

Record WebView := mkView { view_url : string }.

Record t := mk {
  pages : list Page;
  refresh_interval : Z;
  x : Z; y : Z; width : Z; height : Z;
  slots_per_screen : Z;
  grid : list (nat * nat * Cell);   (* [grid.addWidget(w, r, c)], in order *)
  views : list WebView
}.

Definition BuildState : Type :=
  list Call * list (nat * nat * Cell) * list WebView.

(** Body of the loop [for cell_index in range(total_cells)]. *)
Definition add_cell (pages : list Page) (cols : nat)
    (st : BuildState) (cell_index : nat) : M BuildState :=
  let '(calls, grid, views) := st in
  let assigned_count := List.length pages in
  let r := cell_index / cols in
  let c := cell_index mod cols in
  if cell_index <? assigned_count then
    match nth_error pages cell_index with
    | None => raise
    | Some page =>
        let view := List.length views in
        ret (calls ++ [ViewSetZoomFactor view;
                       ViewSetUrl view (format_url (url page))],
             grid ++ [(r, c, Container (title page) view)],
             views ++ [mkView (format_url (url page))])
    end
  else
    ret (calls, grid ++ [(r, c, NoSignalWidget)], views).

Definition init (pages : list Page) (refresh_interval : Z)
    (x y width height : Z) (slots_per_screen : Z) : M (list Call * t) :=
  let '(rows, cols) := get_grid_for_slots slots_per_screen in
  let total_cells := rows * cols in
  '(calls, grid, views) <- foldM (add_cell pages cols) (seq 0 total_cells) ([], [], []) ;;
  ret (calls,
       {| pages := pages; refresh_interval := refresh_interval;
          x := x; y := y; width := width; height := height;
          slots_per_screen := slots_per_screen;
          grid := grid; views := views |}).

(** The timer's tick handler: [view.reload()] on every view. *)
Definition refresh_all_views (self : t) : list Call * t :=
  (map ViewReload (seq 0 (List.length (views self))), self).

Fixpoint after_ticks (k : nat) (self : t) : t :=
  match k with
  | O => self
  | S k' => after_ticks k' (snd (refresh_all_views self))
  end.

(** The pages shown in the grid, cell by cell: [Some] title for a cell with
    a page, [None] for a no-signal cell. *)
Definition cell_titles (self : t) : list (option string) :=
  map (fun rc => match snd rc with
                 | Container ttl _ => Some ttl
                 | NoSignalWidget => None
                 end) (grid self).

End MultiScreenWindow.

(* ================================================================= *)
(** ** [MainController] *)

Inductive Window :=
| SingleW (w : SingleScreenWindow.t)
| MultiW (w : MultiScreenWindow.t).

Record MainController := mkController {
  mode : string;
  pages : list Page;
  refresh_interval : Z;
  slots_per_screen : Z;
  windows : list Window
}.

Definition set_pages (self : MainController) (pages : list Page) : MainController :=
  {| mode := mode self; pages := pages;
     refresh_interval := refresh_interval self;
     slots_per_screen := slots_per_screen self; windows := windows self |}.

Definition set_refresh_interval (self : MainController) (interval : Z) : MainController :=
  {| mode := mode self; pages := pages self;
     refresh_interval := interval;
     slots_per_screen := slots_per_screen self; windows := windows self |}.

Definition set_slots_per_screen (self : MainController) (slots : Z) : MainController :=
  {| mode := mode self; pages := pages self;
     refresh_interval := refresh_interval self;
     slots_per_screen := slots; windows := windows self |}.

Definition set_windows (self : MainController) (ws : list Window) : MainController :=
  {| mode := mode self; pages := pages self;
     refresh_interval := refresh_interval self;
     slots_per_screen := slots_per_screen self; windows := ws |}.

(** The inner loop [for _ in range(slots_per_screen)] of [apply_mode]:
    [n] iterations left, cursor [page_index], pages taken so far
    [screen_pages]. *)
Fixpoint fill_screen (n : nat) (pages : list Page) (page_index : nat)
    (screen_pages : list Page) : list Page * nat :=
  match n with
  | O => (screen_pages, page_index)
  | S n' =>
      if page_index <? List.length pages then
        match nth_error pages page_index with
        | Some p => fill_screen n' pages (page_index + 1) (screen_pages ++ [p])
        | None => (screen_pages, page_index)
        end
      else (screen_pages, page_index)
  end.

Definition AllocState : Type := nat * list Call * list Window.

(** Body of the loop [for screen in app_screens]. *)
Definition place_screen (self : MainController)
    (st : AllocState) (screen : Screen) : M AllocState :=
  let '(page_index, calls, wins) := st in
  let '(screen_pages, page_index) :=
    fill_screen (Z.to_nat (slots_per_screen self)) (pages self) page_index [] in
  if negb (is_empty screen_pages) || (0 <? slots_per_screen self)%Z then
    '(c, window) <- MultiScreenWindow.init screen_pages (refresh_interval self)
                      (geo_x screen) (geo_y screen)
                      (geo_width screen) (geo_height screen)
                      (slots_per_screen self) ;;
    ret (page_index, calls ++ c, wins ++ [MultiW window])
  else ret (page_index, calls, wins).

(** [apply_mode], with [QApplication.screens()] as [app_screens]: the old
    windows are closed and dropped, the new ones built and shown. *)
Definition apply_mode (app_screens : list Screen) (self : MainController)
    : M (list Call * MainController) :=
  let self := set_windows self [] in
  if String.eqb (mode self) "single" then
    '(calls, window) <- SingleScreenWindow.init (pages self) (refresh_interval self) ;;
    ret (calls, set_windows self [SingleW window])
  else
    '(_, calls, wins) <- foldM (place_screen self) app_screens (0, [], []) ;;
    ret (calls, set_windows self wins).

(* ================================================================= *)
(** ** [SettingsWindow.save_settings] *)

Record ConfigData := mkConfig {
  cfg_pages : list Page;
  cfg_refresh_interval : Z;
  cfg_mode : string;
  cfg_slots_per_screen : Z
}.

(** How [save_settings] ends: a warning box and an early return, or the
    data handed to [save_config] and the information box. *)
Inductive Outcome :=
| Warning (text : string)
| SavedAndApplied (data : ConfigData).

Record SettingsWindow := mkSettings {
  controller : MainController;
  page_list : list string;       (* item texts of the list widget *)
  refresh_input : string;
  slots_input : string
}.

Definition with_controller (self : SettingsWindow) (c : MainController) : SettingsWindow :=
  {| controller := c; page_list := page_list self;
     refresh_input := refresh_input self; slots_input := slots_input self |}.

(** The pages collected from the list widget: items of the form
    ["title | url"], split at the first [" | "]. *)
Definition collect_pages (items : list string) : list Page :=
  flat_map (fun item_text =>
              match PyStr.split_once " | " item_text with
              | Some (title_part, url_part) => [mkPage title_part url_part]
              | None => []
              end) items.

(** [int(text.strip())] followed by the check [slots < 1]. *)
Definition parse_slots (text : string) : option Z :=
  match PyStr.py_int (PyStr.strip text) with
  | Some slots => if (slots <? 1)%Z then None else Some slots
  | None => None
  end.

Definition save_settings (app_screens : list Screen) (self : SettingsWindow)
    : M (list Call * SettingsWindow * Outcome) :=
  let new_pages := collect_pages (page_list self) in
  let ctl := set_pages (controller self) new_pages in
  match PyStr.py_int (PyStr.strip (refresh_input self)) with
  | None =>
      ret ([], with_controller self ctl,
           Warning "Refresh interval must be a valid integer!")
  | Some interval =>
      let ctl := set_refresh_interval ctl interval in
      match parse_slots (slots_input self) with
      | None =>
          ret ([], with_controller self ctl,
               Warning "Slots per screen must be a valid positive integer!")
      | Some slots =>
          let ctl := set_slots_per_screen ctl slots in
          '(calls, ctl) <- apply_mode app_screens ctl ;;
          ret (calls, with_controller self ctl,
               SavedAndApplied (mkConfig (pages ctl) (refresh_interval ctl)
                                         (mode ctl) (slots_per_screen ctl)))
      end
  end.

(* ================================================================= *)
(** ** The rest of [SettingsWindow] and of [MainController] *)

(** [str(n)] for an [int]: decimal digits, ["-"] in front of a negative
    number, ["0"] for zero. *)
Definition py_str_int (z : Z) : string := NilZero.string_of_int (Z.to_int z).

(** The text of the list item of a page: [f"{p['title']} | {p['url']}"]. *)
Definition item_text (p : Page) : string :=
  (title p ++ " | " ++ url p)%string.

(** [SettingsWindow.__init__], for the widgets that [save_settings] reads:
    the list holds one item per page of the controller and the two inputs
    hold [str] of the controller's numbers. *)
Definition SettingsWindow_init (ctl : MainController) : SettingsWindow :=
  {| controller := ctl;
     page_list := map item_text (pages ctl);
     refresh_input := py_str_int (refresh_interval ctl);
     slots_input := py_str_int (slots_per_screen ctl) |}.

(** [MainController.__init__] from the dict that [load_config] returns. *)
Definition MainController_init (initial_config : ConfigData) : MainController :=
  {| mode := cfg_mode initial_config;
     pages := cfg_pages initial_config;
     refresh_interval := cfg_refresh_interval initial_config;
     slots_per_screen := cfg_slots_per_screen initial_config;
     windows := [] |}.

(** [set_mode]: stores the mode and rebuilds the windows. *)
Definition set_mode (app_screens : list Screen) (self : MainController)
    (new_mode : string) : M (list Call * MainController) :=
  apply_mode app_screens
    {| mode := new_mode; pages := pages self;
       refresh_interval := refresh_interval self;
       slots_per_screen := slots_per_screen self; windows := windows self |}.

(** The widgets of the settings window that [save_settings] does not read:
    the two line edits of a new page and the text of the mode button. *)
Record SettingsForm := mkForm {
  window : SettingsWindow;
  title_input : string;
  url_input : string;
  mode_button : string
}.

Definition with_page_list (self : SettingsWindow) (items : list string) : SettingsWindow :=
  {| controller := controller self; page_list := items;
     refresh_input := refresh_input self; slots_input := slots_input self |}.

Definition str_is_empty (s : string) : bool :=
  match s with
  | EmptyString => true
  | String _ _ => false
  end.

(** [add_page_to_list]: the result is the form and the text of the
    information box, if one is shown. *)
Definition add_page_to_list (self : SettingsForm) : SettingsForm * option string :=
  let new_title := PyStr.strip (title_input self) in
  let new_url := PyStr.strip (url_input self) in
  if str_is_empty new_title || str_is_empty new_url then
    (self, Some "Please enter both title and URL!")
  else
    ({| window := with_page_list (window self)
                    (page_list (window self)
                     ++ [(new_title ++ " | " ++ new_url)%string]);
        title_input := "";
        url_input := "";
        mode_button := mode_button self |},
     None).


Definition update_mode_button_text (self : SettingsForm) : SettingsForm :=
  {| window := window self;
     title_input := title_input self;
     url_input := url_input self;
     mode_button :=
       if String.eqb (mode (controller (window self))) "single"
       then "Switch to Multi-Screen Mode"
       else "Switch to Single-Screen Mode" |}.

Definition toggle_mode (app_screens : list Screen) (self : SettingsForm)
    : M (list Call * SettingsForm) :=
  '(calls, ctl) <-
     (if String.eqb (mode (controller (window self))) "single"
      then set_mode app_screens (controller (window self)) "multi"
      else set_mode app_screens (controller (window self)) "single") ;;
  ret (calls,
       update_mode_button_text
         {| window := with_controller (window self) ctl;
            title_input := title_input self;
            url_input := url_input self;
            mode_button := mode_button self |}).

(* ================================================================= *)
(** ** Notions used to state the properties *)

(** A string that does not start with white space (what [lstrip] leaves). *)
Definition no_leading_space (s : string) : Prop :=
  match s with
  | EmptyString => True
  | String c _ => PyStr.is_space c = false
  end.

(** The invariant of a rolling window over a non-empty page list. *)
Definition index_in_bounds (w : SingleScreenWindow.t) : Prop :=
  SingleScreenWindow.current_index w < List.length (SingleScreenWindow.pages w).

(** What [MultiScreenWindow.__init__] puts in cell [i] of a grid with
    [cols] columns. *)
Definition cell_of (ps : list Page) (cols i : nat)
    : nat * nat * MultiScreenWindow.Cell :=
  (i / cols, i mod cols,
   match nth_error ps i with
   | Some page => MultiScreenWindow.Container (title page) i
   | None => MultiScreenWindow.NoSignalWidget
   end).

(** The web-view calls made for cell [i]. *)
Definition calls_of (ps : list Page) (i : nat) : list Call :=
  match nth_error ps i with
  | Some page => [ViewSetZoomFactor i; ViewSetUrl i (format_url (url page))]
  | None => []
  end.

Definition view_of (page : Page) : MultiScreenWindow.WebView :=
  MultiScreenWindow.mkView (format_url (url page)).

(** The calls and the window [MultiScreenWindow.__init__] produces, in
    closed form (lemma [init_built]). *)
Definition built (ps : list Page) (interval x y width height slots : Z)
    : list Call * MultiScreenWindow.t :=
  let '(rows, cols) := get_grid_for_slots slots in
  (flat_map (calls_of ps) (seq 0 (rows * cols)),
   MultiScreenWindow.mk ps interval x y width height slots
      (map (cell_of ps cols) (seq 0 (rows * cols)))
      (map view_of (firstn (rows * cols) ps))).

(** The views referred to by the cells that hold a page, in grid order. *)
Definition assigned_views (self : MultiScreenWindow.t) : list nat :=
  flat_map (fun rc => match snd rc with
                      | MultiScreenWindow.Container _ v => [v]
                      | MultiScreenWindow.NoSignalWidget => []
                      end) (MultiScreenWindow.grid self).

Definition window_pages (w : Window) : list Page :=
  match w with
  | SingleW s => SingleScreenWindow.pages s
  | MultiW m => MultiScreenWindow.pages m
  end.

(** The window built for one screen from the block of pages it took. *)
Definition window_for (interval slots : Z) (screen : Screen)
    (block : list Page) : list Call * MultiScreenWindow.t :=
  built block interval
        (geo_x screen) (geo_y screen) (geo_width screen) (geo_height screen)
        slots.

(** The windows of the screens, each taking the next [n] pages of [rest]
    (lemma [foldM_place_screen]). *)
Fixpoint allocate (interval slots : Z) (n : nat) (rest : list Page)
    (screens : list Screen) : list (list Call * MultiScreenWindow.t) :=
  match screens with
  | [] => []
  | screen :: screens' =>
      window_for interval slots screen (firstn n rest)
      :: allocate interval slots n (skipn n rest) screens'
  end.

(** Eighteen pages titled ["A"] to ["R"], for the examples. *)
Definition lettered_pages : list Page :=
  map (fun ch => mkPage (String ch EmptyString) "page.example")
      (list_ascii_of_string "ABCDEFGHIJKLMNOPQR").

(** The number a string of decimal digits [d] stands for after the digits
    read so far gave [acc]. *)
Fixpoint uint_value (d : Decimal.uint) (acc : Z) : Z :=
  match d with
  | Decimal.Nil => acc
  | Decimal.D0 l => uint_value l (10 * acc + 0)
  | Decimal.D1 l => uint_value l (10 * acc + 1)
  | Decimal.D2 l => uint_value l (10 * acc + 2)
  | Decimal.D3 l => uint_value l (10 * acc + 3)
  | Decimal.D4 l => uint_value l (10 * acc + 4)
  | Decimal.D5 l => uint_value l (10 * acc + 5)
  | Decimal.D6 l => uint_value l (10 * acc + 6)
  | Decimal.D7 l => uint_value l (10 * acc + 7)
  | Decimal.D8 l => uint_value l (10 * acc + 8)
  | Decimal.D9 l => uint_value l (10 * acc + 9)
  end.

(** A string without any white space. *)
Fixpoint no_space (s : string) : Prop :=
  match s with
  | EmptyString => True
  | String c s' => PyStr.is_space c = false /\ no_space s'
  end.

(** [sep in s] *)
Definition contains (s sep : string) : bool :=
  match PyStr.split_once sep s with
  | Some _ => true
  | None => false
  end.

(** No occurrence of [sep] in [t ++ rest] starts inside [t]. *)
Fixpoint clean_before (sep t rest : string) : Prop :=
  match t with
  | EmptyString => True
  | String c t' =>
      String.prefix sep (String c t' ++ rest) = false
      /\ clean_before sep t' rest
  end.

(** [SettingsWindow.__init__], all widgets: empty line edits, and the mode
    button labelled by [update_mode_button_text]. *)
Definition SettingsForm_init (ctl : MainController) : SettingsForm :=
  update_mode_button_text
    {| window := SettingsWindow_init ctl;
       title_input := "";
       url_input := "";
       mode_button := "" |}.

(** The positions of a grid of [rows] by [cols] cells, row by row. *)
Definition grid_positions (rows cols : nat) : list (nat * nat) :=
  flat_map (fun r => map (pair r) (seq 0 cols)) (seq 0 rows).

(** The URLs handed to web views by a trace of calls, in order. *)
Definition loaded_urls (calls : list Call) : list string :=
  flat_map (fun c => match c with
                     | ViewSetUrl _ u => [u]
                     | _ => []
                     end) calls.

(** The URLs that the web views of a window hold. *)
Definition window_urls (w : Window) : list string :=
  match w with
  | SingleW s =>
      match SingleScreenWindow.webview s with
      | Some u => [u]
      | None => []
      end
  | MultiW m => map MultiScreenWindow.view_url (MultiScreenWindow.views m)
  end.

(** The calls of one tick of a single-screen window that shows [p]. *)
Definition render_calls (p : Page) : list Call :=
  [LabelSetText (title p); ViewSetUrl 0 (format_url (url p))].

(** [k] ticks of a single-screen window, with the calls of each tick. *)
Fixpoint run_ticks (k : nat) (self : SingleScreenWindow.t)
    : M (list (list Call) * SingleScreenWindow.t) :=
  match k with
  | O => ret ([], self)
  | S k' =>
      '(calls, self') <- SingleScreenWindow.show_next_page self ;;
      '(rest, self'') <- run_ticks k' self' ;;
      ret (calls :: rest, self'')
  end.

(* ================================================================= *)
(** ** [load_config] and [save_config] *)

(** The values [json.load] returns and [json.dump] takes (numbers
    restricted to integers).  A [JDict] lists the items of a Python [dict],
    whose keys are pairwise distinct. *)
#[local] Unset Elimination Schemes.
Inductive Json :=
| JNull
| JBool (b : bool)
| JInt (z : Z)
| JStr (s : string)
| JList (items : list Json)
| JDict (fields : list (string * Json)).
#[local] Set Elimination Schemes.

(** What [load_config] finds: no [config.json]; a file that cannot be read
    or parsed ([open] or [json.load] raises); or a file that parses to
    [data]. *)
Inductive ConfigFile :=
| NoFile
| Unreadable
| Parsed (data : Json).

Fixpoint assoc_get (key : string) (fields : list (string * Json)) : option Json :=
  match fields with
  | [] => None
  | (k, v) :: fields' => if String.eqb k key then Some v else assoc_get key fields'
  end.

(** [data.get(key, default)]; on a value that is not a [dict] the attribute
    lookup raises. *)
Definition dict_get (data : Json) (key : string) (default : Json) : M Json :=
  match data with
  | JDict fields =>
      ret (match assoc_get key fields with
           | Some v => v
           | None => default
           end)
  | _ => raise
  end.

(** The dict that [load_config] returns. *)
Record LoadedConfig := mkLoaded {
  lc_pages : Json;
  lc_refresh_interval : Json;
  lc_mode : Json;
  lc_slots_per_screen : Json
}.

Definition page_json (p : Page) : Json :=
  JDict [("title", JStr (title p)); ("url", JStr (url p))].

Definition default_pages : list Page :=
  [mkPage "Example 1" "https://example.com";
   mkPage "Example 2" "https://example.org";
   mkPage "Example 3" "https://example.net"].

Definition default_config : LoadedConfig :=
  {| lc_pages := JList (map page_json default_pages);
     lc_refresh_interval := JInt 5000;
     lc_mode := JStr "single";
     lc_slots_per_screen := JInt 1 |}.

Definition load_config (file : ConfigFile) : LoadedConfig :=
  match file with
  | Parsed data =>
      match
        (pages <- dict_get data "pages" (JList (map page_json default_pages)) ;;
         refresh_interval <- dict_get data "refresh_interval" (JInt 5000) ;;
         mode <- dict_get data "mode" (JStr "single") ;;
         slots_per_screen <- dict_get data "slots_per_screen" (JInt 1) ;;
         ret {| lc_pages := pages;
                lc_refresh_interval := refresh_interval;
                lc_mode := mode;
                lc_slots_per_screen := slots_per_screen |})
      with
      | Some config => config
      | None => default_config          (* [except Exception] *)
      end
  | NoFile | Unreadable => default_config
  end.

(** The dict that [save_config] hands to [json.dump]. *)
Definition save_config_data (cfg : ConfigData) : Json :=
  JDict [("pages", JList (map page_json (cfg_pages cfg)));
         ("refresh_interval", JInt (cfg_refresh_interval cfg));
         ("mode", JStr (cfg_mode cfg));
         ("slots_per_screen", JInt (cfg_slots_per_screen cfg))].

(** Reading a loaded configuration at the types [MainController] uses its
    fields at: a list of title/URL dicts, two integers and a string. *)
Definition page_of_json (j : Json) : option Page :=
  match j with
  | JDict fields =>
      match assoc_get "title" fields, assoc_get "url" fields with
      | Some (JStr t), Some (JStr u) => Some (mkPage t u)
      | _, _ => None
      end
  | _ => None
  end.

Fixpoint pages_of_json (items : list Json) : option (list Page) :=
  match items with
  | [] => Some []
  | j :: items' =>
      match page_of_json j, pages_of_json items' with
      | Some p, Some ps => Some (p :: ps)
      | _, _ => None
      end
  end.

Definition typed_config (lc : LoadedConfig) : option ConfigData :=
  match lc_pages lc, lc_refresh_interval lc, lc_mode lc, lc_slots_per_screen lc with
  | JList items, JInt interval, JStr m, JInt slots =>
      match pages_of_json items with
      | Some ps => Some (mkConfig ps interval m slots)
      | None => None
      end
  | _, _, _, _ => None
  end.

(* ================================================================= *)
(** ** The first revision, [main.py]: one web view per window *)

Module V1.

(** A monitor as [screeninfo.get_monitors()] lists it. *)
Record Monitor := mkMonitor { mon_x : Z; mon_y : Z; mon_width : Z; mon_height : Z }.

Record RefreshableWindow := mkWindow {
  urls : list string;
  refresh_interval : Z;
  single_mode : bool;
  current_index : nat;
  geometry : Z * Z * Z * Z;
  widget_url : option string;      (* URL loaded in the web view, if any *)
  timer_started : bool
}.

(** The timer's handler. *)
Definition refresh_content (self : RefreshableWindow)
    : M (list Call * RefreshableWindow) :=
  if single_mode self then
    match nth_error (urls self) (current_index self) with
    | None => raise
    | Some u =>
        let target_url := format_url u in
        ret ([ViewSetUrl 0 target_url],
             {| urls := urls self;
                refresh_interval := refresh_interval self;
                single_mode := single_mode self;
                current_index := (current_index self + 1) mod List.length (urls self);
                geometry := geometry self;
                widget_url := Some target_url;
                timer_started := timer_started self |})
    end
  else ret ([], self).

Definition RefreshableWindow_init (urls : list string) (refresh_interval : Z)
    (single_mode : bool) (screen : option Monitor)
    : M (list Call * RefreshableWindow) :=
  let geometry :=
    match screen with
    | Some m => (mon_x m, mon_y m, mon_width m, mon_height m)
    | None => (100, 100, 800, 600)%Z
    end in
  if single_mode then
    refresh_content
      (mkWindow urls refresh_interval single_mode 0 geometry None true)
  else
    match nth_error urls 0 with
    | None => raise
    | Some u =>
        let first_url := format_url u in
        ret ([ViewSetUrl 0 first_url],
             mkWindow urls refresh_interval single_mode 0 geometry
                      (Some first_url) false)
    end.

Record MainController := mkController {
  mode : string;
  ctl_urls : list string;
  ctl_refresh_interval : Z;
  windows : list RefreshableWindow
}.

(** The slice [l[start::step]] for [step >= 1]: [countdown] elements are
    passed over before the next one is taken. *)
Fixpoint every_nth {A} (step countdown : nat) (l : list A) : list A :=
  match l with
  | [] => []
  | a :: l' =>
      match countdown with
      | O => a :: every_nth step (step - 1) l'
      | S c => every_nth step c l'
      end
  end.

(** Body of the loop [for i, monitor in enumerate(monitors)] of
    [_create_multi_windows]; [count] is [len(monitors)]. *)
Definition place_monitor (self : MainController) (count : nat)
    (st : list Call * list RefreshableWindow) (im : nat * Monitor)
    : M (list Call * list RefreshableWindow) :=
  let '(calls, wins) := st in
  let '(i, monitor) := im in
  let urls_for_window := every_nth count i (ctl_urls self) in
  if negb (is_empty urls_for_window) then
    '(c, window) <- RefreshableWindow_init urls_for_window
                      (ctl_refresh_interval self) false (Some monitor) ;;
    ret (calls ++ c, wins ++ [window])
  else ret (calls, wins).

Definition create_multi_windows (monitors : list Monitor) (self : MainController)
    : M (list Call * list RefreshableWindow) :=
  foldM (place_monitor self (List.length monitors))
        (combine (seq 0 (List.length monitors)) monitors) ([], []).

(** [apply_mode], with [get_monitors()] as [monitors]. *)
Definition apply_mode (monitors : list Monitor) (self : MainController)
    : M (list Call * MainController) :=
  if String.eqb (mode self) "single" then
    '(calls, window) <- RefreshableWindow_init (ctl_urls self)
                          (ctl_refresh_interval self) true None ;;
    ret (calls, mkController (mode self) (ctl_urls self)
                             (ctl_refresh_interval self) [window])
  else if String.eqb (mode self) "multi" then
    '(calls, wins) <- create_multi_windows monitors self ;;
    ret (calls, mkController (mode self) (ctl_urls self)
                             (ctl_refresh_interval self) wins)
  else
    ret ([], mkController (mode self) (ctl_urls self)
                          (ctl_refresh_interval self) []).

(** The window [_create_multi_windows] builds for monitor [i]. *)
Definition window_of (self : MainController) (count i : nat) (monitor : Monitor)
    : RefreshableWindow :=
  mkWindow (every_nth count i (ctl_urls self)) (ctl_refresh_interval self) false 0
           (mon_x monitor, mon_y monitor, mon_width monitor, mon_height monitor)
           (option_map format_url (nth_error (ctl_urls self) i)) false.

End V1.

(** The windows and the calls that one turn of the loop of
    [V1._create_multi_windows] adds for monitor [i]. *)
Definition v1_windows_for (self : V1.MainController) (count : nat)
    (im : nat * V1.Monitor) : list V1.RefreshableWindow :=
  if fst im <? List.length (V1.ctl_urls self)
  then [V1.window_of self count (fst im) (snd im)]
  else [].

Definition v1_calls_for (self : V1.MainController) (im : nat * V1.Monitor)
    : list Call :=
  match nth_error (V1.ctl_urls self) (fst im) with
  | Some u => [ViewSetUrl 0 (format_url u)]
  | None => []
  end.

(* ================================================================= *)
(** ** The second revision, [main_update.py]: a column of views per window *)

Module V2.

Record SingleScreenWindow := mkSingle {
  urls : list string;
  refresh_interval : Z;
  current_index : nat;
  webview : option string
}.

(** The timer's handler; no guard for an empty list. *)
Definition show_next_url (self : SingleScreenWindow)
    : M (list Call * SingleScreenWindow) :=
  match nth_error (urls self) (current_index self) with
  | None => raise
  | Some u =>
      let url := format_url u in
      ret ([ViewSetUrl 0 url],
           {| urls := urls self;
              refresh_interval := refresh_interval self;
              current_index := (current_index self + 1) mod List.length (urls self);
              webview := Some url |})
  end.

Definition SingleScreenWindow_init (urls : list string) (refresh_interval : Z)
    : M (list Call * SingleScreenWindow) :=
  show_next_url (mkSingle urls refresh_interval 0 None).

Record MultiScreenWindow := mkMulti {
  window_urls : list string;
  multi_refresh_interval : Z;
  geometry : Z * Z * Z * Z;
  slots_per_screen : Z;
  views : list string              (* the URL of each web view, top down *)
}.

(** The loop [for i, url in enumerate(self.window_urls)] from view [i] on. *)
Fixpoint add_views (i : nat) (window_urls : list string)
    : list Call * list string :=
  match window_urls with
  | [] => ([], [])
  | url :: rest =>
      let url := format_url url in
      let '(calls, views) := add_views (S i) rest in
      (ViewSetUrl i url :: calls, url :: views)
  end.

Definition MultiScreenWindow_init (window_urls : list string)
    (refresh_interval : Z) (screen_info : V1.Monitor) (slots_per_screen : Z)
    : list Call * MultiScreenWindow :=
  let '(calls, views) := add_views 0 window_urls in
  (calls,
   mkMulti window_urls refresh_interval
           (V1.mon_x screen_info, V1.mon_y screen_info,
            V1.mon_width screen_info, V1.mon_height screen_info)
           slots_per_screen views).

Inductive Window :=
| SingleW (w : SingleScreenWindow)
| MultiW (w : MultiScreenWindow).

Record MainController := mkController {
  mode : string;
  ctl_urls : list string;
  ctl_refresh_interval : Z;
  ctl_slots_per_screen : Z;
  windows : list Window
}.

(** The inner loop [for _ in range(self.slots_per_screen)]. *)
Fixpoint fill_window (n : nat) (urls : list string) (idx : nat)
    (window_urls : list string) : list string * nat :=
  match n with
  | O => (window_urls, idx)
  | S n' =>
      if idx <? List.length urls then
        match nth_error urls idx with
        | Some u => fill_window n' urls (idx + 1) (window_urls ++ [u])
        | None => (window_urls, idx)
        end
      else (window_urls, idx)
  end.

(** Body of the loop [for monitor in monitors]. *)
Definition place_monitor (self : MainController)
    (st : nat * list Call * list Window) (monitor : V1.Monitor)
    : nat * list Call * list Window :=
  let '(idx, calls, wins) := st in
  let '(window_urls, idx) :=
    fill_window (Z.to_nat (ctl_slots_per_screen self)) (ctl_urls self) idx [] in
  if negb (is_empty window_urls) then
    let '(c, window) :=
      MultiScreenWindow_init window_urls (ctl_refresh_interval self) monitor
                             (ctl_slots_per_screen self) in
    (idx, calls ++ c, wins ++ [MultiW window])
  else (idx, calls, wins).

Definition apply_mode (monitors : list V1.Monitor) (self : MainController)
    : M (list Call * MainController) :=
  if String.eqb (mode self) "single" then
    '(calls, window) <- SingleScreenWindow_init (ctl_urls self)
                          (ctl_refresh_interval self) ;;
    ret (calls, mkController (mode self) (ctl_urls self) (ctl_refresh_interval self)
                             (ctl_slots_per_screen self) [SingleW window])
  else
    let '(_, calls, wins) := fold_left (place_monitor self) monitors (0, [], []) in
    ret (calls, mkController (mode self) (ctl_urls self) (ctl_refresh_interval self)
                             (ctl_slots_per_screen self) wins).

(** The dict that [save_config] of this revision hands to [json.dump]. *)
Definition save_config_data (urls : list string) (refresh_interval : Z)
    (mode : string) (slots_per_screen : Z) : Json :=
  JDict [("urls", JList (map JStr urls));
         ("refresh_interval", JInt refresh_interval);
         ("mode", JStr mode);
         ("slots_per_screen", JInt slots_per_screen)].

End V2.

(** The windows that [V2.apply_mode] builds for the monitors, each taking
    the next [n] URLs of [rest]; a monitor that gets none has no window. *)
Fixpoint v2_allocate (interval slots : Z) (n : nat) (rest : list string)
    (monitors : list V1.Monitor) : list (list Call * V2.MultiScreenWindow) :=
  match monitors with
  | [] => []
  | monitor :: monitors' =>
      (if is_empty (firstn n rest) then []
       else [V2.MultiScreenWindow_init (firstn n rest) interval monitor slots])
      ++ v2_allocate interval slots n (skipn n rest) monitors'
  end.

Definition v2_window_urls (w : V2.Window) : list string :=
  match w with
  | V2.SingleW s => V2.urls s
  | V2.MultiW m => V2.window_urls m
  end.

Definition v2_views (w : V2.Window) : list string :=
  match w with
  | V2.SingleW s =>
      match V2.webview s with
      | Some u => [u]
      | None => []
      end
  | V2.MultiW m => V2.views m
  end.

(* ================================================================= *)
(** * Properties *)

(** ** Stripping *)

Section Strip.
Import PyStr.

Lemma rstrip_nonspace (c : ascii) (s : string) :
  is_space c = false -> rstrip (String c s) = String c (rstrip s).
Proof.
  intros Hc. simpl. destruct (rstrip s); [now rewrite Hc | reflexivity].
Qed.

Lemma rstrip_idempotent (s : string) : rstrip (rstrip s) = rstrip s.
Proof.
  induction s as [|c s IH]; [reflexivity|].
  simpl. destruct (rstrip s) as [|d r] eqn:E.
  - destruct (is_space c) eqn:Hc; [reflexivity|].
    simpl. now rewrite Hc.
  - change (rstrip (String c (String d r)) = String c (String d r)).
    simpl in IH |- *.
    destruct (match rstrip r with
              | EmptyString => if is_space d then EmptyString else String d EmptyString
              | String a s0 => String d (String a s0)
              end) eqn:E'; [discriminate|].
    now rewrite IH.
Qed.

Lemma lstrip_no_leading_space (s : string) : no_leading_space (lstrip s).
Proof.
  induction s as [|c s IH]; simpl; [exact I|].
  destruct (is_space c) eqn:Hc; [exact IH | exact Hc].
Qed.

Lemma lstrip_fixed (s : string) : no_leading_space s -> lstrip s = s.
Proof.
  destruct s as [|c s]; simpl; [reflexivity|]. now intros ->.
Qed.

Lemma rstrip_no_leading_space (s : string) :
  no_leading_space s -> no_leading_space (rstrip s).
Proof.
  destruct s as [|c s]; [exact (fun H => H)|].
  intros Hc. simpl in Hc. rewrite (rstrip_nonspace _ _ Hc). exact Hc.
Qed.

Lemma strip_no_leading_space (s : string) : no_leading_space (strip s).
Proof. apply rstrip_no_leading_space, lstrip_no_leading_space. Qed.

Lemma strip_idempotent (s : string) : strip (strip s) = strip s.
Proof.
  unfold strip at 1.
  rewrite (lstrip_fixed _ (strip_no_leading_space s)).
  apply rstrip_idempotent.
Qed.

Lemma strip_rstrip_fixed (s : string) : rstrip (strip s) = strip s.
Proof. apply rstrip_idempotent. Qed.

(** Stripping does not touch a scheme put in front of a stripped string. *)
Lemma strip_https (s : string) :
  strip ("https://" ++ strip s)%string = ("https://" ++ strip s)%string.
Proof.
  unfold strip at 1.
  change (lstrip ("https://" ++ strip s)%string) with ("https://" ++ strip s)%string.
  cbn [append].
  repeat (rewrite rstrip_nonspace by reflexivity).
  now rewrite strip_rstrip_fixed.
Qed.

End Strip.

(** ** [format_url] *)

Lemma format_url_spec (u : string) :
  format_url u =
    if PyStr.startswith (PyStr.strip u) "http://"
       || PyStr.startswith (PyStr.strip u) "https://"
    then PyStr.strip u
    else ("https://" ++ PyStr.strip u)%string.
Proof.
  unfold format_url.
  destruct (PyStr.startswith (PyStr.strip u) "http://"
            || PyStr.startswith (PyStr.strip u) "https://"); reflexivity.
Qed.

Lemma format_url_has_scheme (u : string) :
  PyStr.startswith (format_url u) "http://"
  || PyStr.startswith (format_url u) "https://" = true.
Proof.
  rewrite format_url_spec.
  destruct (PyStr.startswith (PyStr.strip u) "http://"
            || PyStr.startswith (PyStr.strip u) "https://") eqn:E.
  - exact E.
  - unfold PyStr.startswith. simpl.
    destruct (PyStr.strip u); reflexivity.
Qed.

Lemma format_url_strip_fixed (u : string) :
  PyStr.strip (format_url u) = format_url u.
Proof.
  rewrite format_url_spec.
  destruct (PyStr.startswith (PyStr.strip u) "http://"
            || PyStr.startswith (PyStr.strip u) "https://").
  - apply strip_idempotent.
  - apply strip_https.
Qed.

(** C8: [format_url] strips its argument first, then puts ["https://"] in
    front exactly when the stripped string starts with neither ["http://"]
    nor ["https://"]; it is idempotent; and it maps ["example.com"] to
    ["https://example.com"] and leaves ["http://x"] alone. *)
Theorem format_url_normalizes :
  (forall u,
      let t := PyStr.strip u in
      (PyStr.startswith t "http://" || PyStr.startswith t "https://" = false
       /\ format_url u = ("https://" ++ t)%string)
      \/ (PyStr.startswith t "http://" || PyStr.startswith t "https://" = true
          /\ format_url u = t))
  /\ (forall u, format_url (format_url u) = format_url u)
  /\ format_url "example.com" = "https://example.com"
  /\ format_url "http://x" = "http://x".
Proof.
  split; [|split; [|split; reflexivity]].
  - intros u t. subst t. rewrite format_url_spec.
    destruct (PyStr.startswith (PyStr.strip u) "http://"
              || PyStr.startswith (PyStr.strip u) "https://");
      [right | left]; split; reflexivity.
  - intros u. rewrite (format_url_spec (format_url u)).
    rewrite format_url_strip_fixed, format_url_has_scheme. reflexivity.
Qed.

(** ** [get_grid_for_slots] *)

(** C2: the grid planner is a total function of the slot count, it returns
    the shape of the table for every count (in particular for 1..20, with
    4x4 for every count above 16), and the grid has at least [min s 16]
    cells. *)
Theorem get_grid_for_slots_table (s : Z) :
  exists rows cols,
    get_grid_for_slots s = (rows, cols)
    /\ ((s <= 1)%Z /\ (rows, cols) = (1, 1)
        \/ (s = 2)%Z /\ (rows, cols) = (1, 2)
        \/ (3 <= s <= 4)%Z /\ (rows, cols) = (2, 2)
        \/ (5 <= s <= 6)%Z /\ (rows, cols) = (2, 3)
        \/ (7 <= s <= 9)%Z /\ (rows, cols) = (3, 3)
        \/ (10 <= s <= 12)%Z /\ (rows, cols) = (3, 4)
        \/ (13 <= s <= 16)%Z /\ (rows, cols) = (4, 4)
        \/ (16 < s)%Z /\ (rows, cols) = (4, 4))
    /\ (Z.of_nat (rows * cols) >= Z.min s 16)%Z.
Proof.
  unfold get_grid_for_slots.
  repeat match goal with
         | |- context [(?a <=? ?b)%Z] => destruct (Z.leb_spec a b)
         | |- context [(?a =? ?b)%Z] => destruct (Z.eqb_spec a b)
         end;
    do 2 eexists; (split; [reflexivity|]); (split; [|simpl; lia]).
  all: first [ left; split; [lia|reflexivity]
             | right; left; split; [lia|reflexivity]
             | do 2 right; left; split; [lia|reflexivity]
             | do 3 right; left; split; [lia|reflexivity]
             | do 4 right; left; split; [lia|reflexivity]
             | do 5 right; left; split; [lia|reflexivity]
             | do 6 right; left; split; [lia|reflexivity]
             | do 7 right; split; [lia|reflexivity] ].
Qed.

(** ** Single-screen rotation *)

Section Single.
Import SingleScreenWindow.

Lemma show_next_page_empty (w : t) :
  pages w = [] -> show_next_page w = Some ([], w).
Proof. unfold show_next_page. now intros ->. Qed.

Lemma show_next_page_render (w : t) :
  index_in_bounds w ->
  exists page,
    nth_error (pages w) (current_index w) = Some page
    /\ show_next_page w =
         Some ([LabelSetText (title page); ViewSetUrl 0 (format_url (url page))],
               mk (pages w) (refresh_interval w)
                  ((current_index w + 1) mod List.length (pages w))
                  (title page) (Some (format_url (url page)))).
Proof.
  unfold index_in_bounds, show_next_page. intros Hlt.
  destruct (nth_error (pages w) (current_index w)) as [page|] eqn:E.
  - exists page. split; [reflexivity|].
    destruct (pages w); [simpl in Hlt; lia | reflexivity].
  - apply nth_error_None in E. lia.
Qed.

Lemma show_next_page_keeps_bounds (w : t) :
  index_in_bounds w ->
  exists calls w',
    show_next_page w = Some (calls, w')
    /\ pages w' = pages w
    /\ refresh_interval w' = refresh_interval w
    /\ current_index w' = (current_index w + 1) mod List.length (pages w)
    /\ index_in_bounds w'.
Proof.
  intros Hlt. destruct (show_next_page_render w Hlt) as (page & _ & E).
  do 2 eexists. split; [exact E|].
  repeat split. unfold index_in_bounds in *. cbn [current_index pages].
  apply Nat.mod_upper_bound. lia.
Qed.

Lemma after_ticks_index (k : nat) : forall w,
  index_in_bounds w ->
  exists w',
    after_ticks k w = Some w'
    /\ pages w' = pages w
    /\ current_index w' = (current_index w + k) mod List.length (pages w).
Proof.
  induction k as [|k IH]; intros w Hlt.
  - exists w. repeat split. rewrite Nat.add_0_r.
    symmetry. now apply Nat.mod_small.
  - destruct (show_next_page_keeps_bounds w Hlt)
      as (calls & w1 & E & Hp & _ & Hi & Hlt1).
    destruct (IH w1 Hlt1) as (w' & E' & Hp' & Hi').
    exists w'. cbn [after_ticks]. rewrite E. cbn [bind].
    split; [exact E'|]. split; [congruence|].
    rewrite Hi', Hp, Hi.
    assert (Hn : List.length (pages w) <> 0) by (unfold index_in_bounds in Hlt; lia).
    rewrite Nat.Div0.add_mod_idemp_l. f_equal. lia.
Qed.

Lemma after_ticks_empty (k : nat) : forall w,
  pages w = [] -> after_ticks k w = Some w.
Proof.
  induction k as [|k IH]; intros w Hp; [reflexivity|].
  cbn [after_ticks]. rewrite (show_next_page_empty w Hp). cbn [bind].
  now apply IH.
Qed.

Lemma fresh_in_bounds (ps : list Page) (interval : Z) :
  ps <> [] -> index_in_bounds (fresh ps interval).
Proof.
  unfold index_in_bounds. cbn. destruct ps; [congruence | simpl; lia].
Qed.

(** C3: tick [k] of a single-screen window is the [k]-th call of
    [show_next_page] on the freshly seeded window, the call made by
    [__init__] being tick 0.  With [n > 0] pages that call renders the page
    of index [k mod n] (its title, then its formatted URL) and leaves
    [current_index] at [(current_index + 1) mod n]; with no page it renders
    nothing. *)
Theorem single_mode_tick_renders_k_mod_n
    (ps : list Page) (interval : Z) (k : nat) :
  init ps interval = show_next_page (fresh ps interval)
  /\ exists w,
      after_ticks k (fresh ps interval) = Some w
      /\ (ps <> [] ->
          exists page w',
            current_index w = k mod List.length ps
            /\ nth_error ps (k mod List.length ps) = Some page
            /\ show_next_page w =
                 Some ([LabelSetText (title page);
                        ViewSetUrl 0 (format_url (url page))], w')
            /\ current_index w' = (current_index w + 1) mod List.length ps)
      /\ (ps = [] -> show_next_page w = Some ([], w)).
Proof.
  split; [reflexivity|].
  destruct ps as [|p ps'] eqn:Eps.
  - exists (fresh [] interval). split; [now apply after_ticks_empty|].
    split; [congruence | reflexivity].
  - rewrite <- Eps.
    assert (Hne : ps <> []) by (subst; discriminate).
    destruct (after_ticks_index k _ (fresh_in_bounds ps interval Hne))
      as (w & E & Hp & Hi).
    cbn [fresh pages current_index] in Hp, Hi. rewrite Nat.add_0_l in Hi.
    exists w. split; [exact E|]. split; [|congruence].
    intros _.
    assert (Hlt : index_in_bounds w).
    { unfold index_in_bounds. rewrite Hi, Hp.
      apply Nat.mod_upper_bound. subst; discriminate. }
    destruct (show_next_page_render w Hlt) as (page & Hnth & Hshow).
    exists page. eexists. rewrite Hp, Hi in Hnth.
    split; [exact Hi|]. split; [exact Hnth|]. split; [exact Hshow|].
    cbn [current_index]. now rewrite Hp.
Qed.

(** C10: over a non-empty page list, [current_index < len(pages)] holds
    when [__init__] returns and every tick that starts within bounds
    renders without an [IndexError] and ends within bounds. *)
Theorem single_mode_index_in_bounds (ps : list Page) (interval : Z) :
  ps <> [] ->
  (exists calls w0,
      init ps interval = Some (calls, w0)
      /\ pages w0 = ps /\ index_in_bounds w0)
  /\ (forall w,
        pages w = ps -> index_in_bounds w ->
        exists calls w',
          show_next_page w = Some (calls, w')
          /\ pages w' = ps /\ index_in_bounds w').
Proof.
  intros Hne. split.
  - destruct (show_next_page_keeps_bounds _ (fresh_in_bounds ps interval Hne))
      as (calls & w0 & E & Hp & _ & _ & Hlt).
    exists calls, w0. repeat split; assumption.
  - intros w Hp Hlt.
    destruct (show_next_page_keeps_bounds w Hlt)
      as (calls & w' & E & Hp' & _ & _ & Hlt').
    exists calls, w'. repeat split; [assumption | congruence | assumption].
Qed.

Lemma single_mode_index_in_bounds_witness :
  [mkPage "A" "a.example"; mkPage "B" "b.example"] <> []
  /\ exists calls w0,
      init [mkPage "A" "a.example"; mkPage "B" "b.example"] 5000%Z = Some (calls, w0)
      /\ pages w0 = [mkPage "A" "a.example"; mkPage "B" "b.example"]
      /\ index_in_bounds w0.
Proof.
  split; [discriminate|].
  refine (proj1 (single_mode_index_in_bounds
                   [mkPage "A" "a.example"; mkPage "B" "b.example"] 5000%Z _)).
  discriminate.
Defined.

End Single.

(** ** The grid of a multi-screen window *)

Section Multi.
Import MultiScreenWindow.

Lemma skipn_nth_error_cons {A} (l : list A) (a : nat) (p : A) :
  nth_error l a = Some p -> skipn a l = p :: skipn (S a) l.
Proof.
  revert a. induction l as [|h l IH]; intros [|a] H; simpl in *; try discriminate.
  - now inversion H.
  - now apply IH.
Qed.

Lemma foldM_add_cell (ps : list Page) (cols n : nat) :
  forall a calls grid views,
    List.length views = Nat.min a (List.length ps) ->
    foldM (add_cell ps cols) (seq a n) (calls, grid, views) =
      Some (calls ++ flat_map (calls_of ps) (seq a n),
            grid ++ map (cell_of ps cols) (seq a n),
            views ++ map view_of (firstn n (skipn a ps))).
Proof.
  induction n as [|n IH]; intros a calls grid views Hv.
  - cbn. now rewrite !app_nil_r.
  - cbn [seq foldM]. unfold add_cell at 1.
    destruct (Nat.ltb_spec a (List.length ps)) as [Hlt|Hge].
    + destruct (nth_error ps a) as [page|] eqn:E;
        [|apply nth_error_None in E; lia].
      cbn [bind ret]. rewrite IH by (rewrite length_app; cbn [List.length]; lia).
      rewrite (skipn_nth_error_cons _ _ _ E).
      cbn [firstn map flat_map]. unfold calls_of at 2, cell_of at 2.
      rewrite E. replace (List.length views) with a by lia.
      rewrite <- !app_assoc. reflexivity.
    + cbn [bind ret]. rewrite IH by lia.
      assert (E : nth_error ps a = None) by now apply nth_error_None.
      rewrite (skipn_all2 ps) by lia.
      rewrite (skipn_all2 ps) by lia.
      rewrite !firstn_nil.
      cbn [map flat_map]. unfold calls_of at 2, cell_of at 2. rewrite E.
      rewrite <- !app_assoc. reflexivity.
Qed.

Lemma init_built (ps : list Page) (interval x y width height slots : Z) :
  init ps interval x y width height slots =
    Some (built ps interval x y width height slots).
Proof.
  unfold init, built. destruct (get_grid_for_slots slots) as [rows cols].
  rewrite foldM_add_cell by (simpl; lia).
  reflexivity.
Qed.

Lemma assigned_views_cells (ps : list Page) (cols : nat) :
  forall n a,
    flat_map (fun rc => match snd rc with
                        | Container _ v => [v]
                        | NoSignalWidget => []
                        end) (map (cell_of ps cols) (seq a n))
    = seq a (Nat.min n (List.length ps - a)).
Proof.
  induction n as [|n IH]; intros a; [reflexivity|].
  cbn [seq map flat_map]. rewrite IH. unfold cell_of. cbn [snd].
  destruct (nth_error ps a) as [page|] eqn:E.
  - assert (a < List.length ps) by (apply nth_error_Some; congruence).
    replace (Nat.min (S n) (List.length ps - a))
      with (S (Nat.min n (List.length ps - S a))) by lia.
    reflexivity.
  - apply nth_error_None in E.
    replace (List.length ps - a) with 0 by lia.
    replace (List.length ps - S a) with 0 by lia.
    now rewrite !Nat.min_0_r.
Qed.

Lemma built_assigned_views (ps : list Page) (interval x y width height slots : Z) :
  let w := snd (built ps interval x y width height slots) in
  assigned_views w = seq 0 (List.length (views w)).
Proof.
  unfold built, assigned_views.
  destruct (get_grid_for_slots slots) as [rows cols]. cbn [snd grid views].
  rewrite assigned_views_cells, length_map, length_firstn, Nat.sub_0_r.
  reflexivity.
Qed.

Lemma after_ticks_fixed (k : nat) (w : t) : after_ticks k w = w.
Proof. induction k as [|k IH]; [reflexivity | exact IH]. Qed.

Lemma get_grid_cols_pos (slots : Z) : 0 < snd (get_grid_for_slots slots).
Proof.
  unfold get_grid_for_slots.
  repeat match goal with
         | |- context [if ?b then _ else _] => destruct b
         end; simpl; lia.
Qed.

(** C7: a tick of a multi-screen window calls [reload] and nothing else,
    once on each view that a page-holding cell refers to and on no other
    widget; it leaves the window, hence every cell and the page bound to
    it, as [__init__] built it, whatever the number of ticks.  The cells
    hold the window's pages in order (cell [i] shows page [i], on view [i]
    loaded with that page's URL); the other cells are no-signal widgets,
    which own no view. *)
Theorem multi_tick_reloads_assigned_views
    (ps : list Page) (interval x y width height slots : Z) :
  exists calls w,
    init ps interval x y width height slots = Some (calls, w)
    /\ fst (refresh_all_views w) = map ViewReload (assigned_views w)
    /\ (forall k, after_ticks k w = w)
    /\ pages w = ps
    /\ (forall i cell, nth_error (grid w) i = Some cell ->
          match nth_error ps i with
          | Some page =>
              snd cell = Container (title page) i
              /\ nth_error (views w) i = Some (mkView (format_url (url page)))
          | None =>
              snd cell = NoSignalWidget /\ nth_error (views w) i = None
          end).
Proof.
  exists (fst (built ps interval x y width height slots)),
         (snd (built ps interval x y width height slots)).
  split; [rewrite init_built; now destruct (built _ _ _ _ _ _ _)|].
  split.
  { unfold refresh_all_views. cbn [fst]. now rewrite built_assigned_views. }
  split; [intros k; apply after_ticks_fixed|].
  unfold built. destruct (get_grid_for_slots slots) as [rows cols].
  cbn [snd pages grid views]. split; [reflexivity|].
  intros i cell Hc.
  rewrite nth_error_map in Hc.
  assert (Hi : i < rows * cols).
  { destruct (Nat.lt_ge_cases i (rows * cols)) as [H|H]; [exact H|].
    rewrite (proj2 (nth_error_None _ _)) in Hc by (rewrite length_seq; lia).
    discriminate. }
  rewrite nth_error_seq in Hc.
  destruct (Nat.ltb_spec i (rows * cols)); [|lia].
  cbn in Hc. inversion Hc; subst cell.
  unfold cell_of. cbn [snd].
  rewrite nth_error_map, nth_error_firstn.
  destruct (Nat.ltb_spec i (rows * cols)); [|lia].
  destruct (nth_error ps i); split; reflexivity.
Qed.

End Multi.

(** ** Allocation of pages to screens *)

Section Allocation.

Lemma fill_screen_block (n : nat) (ps : list Page) :
  forall cursor acc,
    fill_screen n ps cursor acc =
      (acc ++ firstn n (skipn cursor ps),
       cursor + List.length (firstn n (skipn cursor ps))).
Proof.
  induction n as [|n IH]; intros cursor acc.
  - cbn. now rewrite app_nil_r, Nat.add_0_r.
  - cbn [fill_screen].
    destruct (Nat.ltb_spec cursor (List.length ps)) as [Hlt|Hge].
    + destruct (nth_error ps cursor) as [p|] eqn:E;
        [|apply nth_error_None in E; lia].
      rewrite IH, (skipn_nth_error_cons _ _ _ E).
      replace (cursor + 1) with (S cursor) by lia.
      cbn [firstn List.length]. rewrite <- app_assoc. cbn [app].
      f_equal. lia.
    + rewrite (skipn_all2 ps) by lia. rewrite firstn_nil.
      cbn. now rewrite app_nil_r, Nat.add_0_r.
Qed.

Lemma skipn_past_block (n cursor : nat) (ps : list Page) :
  skipn (cursor + List.length (firstn n (skipn cursor ps))) ps
  = skipn n (skipn cursor ps).
Proof.
  rewrite length_firstn, length_skipn.
  destruct (Nat.le_gt_cases n (List.length ps - cursor)) as [H|H].
  - rewrite Nat.min_l by lia. rewrite skipn_skipn. f_equal. lia.
  - rewrite Nat.min_r by lia.
    rewrite (skipn_all2 ps) by lia.
    rewrite (skipn_all2 (skipn cursor ps)) by (rewrite length_skipn; lia).
    reflexivity.
Qed.

Lemma foldM_place_screen (self : MainController) (screens : list Screen) :
  (0 < slots_per_screen self)%Z ->
  forall cursor calls wins,
    exists cursor',
      foldM (place_screen self) screens (cursor, calls, wins) =
        Some (cursor',
              calls ++ flat_map fst
                         (allocate (refresh_interval self) (slots_per_screen self)
                                   (Z.to_nat (slots_per_screen self))
                                   (skipn cursor (pages self)) screens),
              wins ++ map (fun cw => MultiW (snd cw))
                        (allocate (refresh_interval self) (slots_per_screen self)
                                  (Z.to_nat (slots_per_screen self))
                                  (skipn cursor (pages self)) screens)).
Proof.
  intros Hpos. induction screens as [|screen screens IH]; intros cursor calls wins.
  - exists cursor. cbn. now rewrite !app_nil_r.
  - cbn [foldM]. unfold place_screen at 1.
    rewrite fill_screen_block. cbn [app].
    replace (0 <? slots_per_screen self)%Z with true
      by (symmetry; now apply Z.ltb_lt).
    rewrite orb_true_r, init_built. cbn [bind ret].
    destruct (built _ _ _ _ _ _ _) as [c w] eqn:Eb. cbn [bind ret].
    destruct (IH (cursor + List.length
                    (firstn (Z.to_nat (slots_per_screen self))
                            (skipn cursor (pages self))))
                 (calls ++ c) (wins ++ [MultiW w])) as (cursor' & E).
    exists cursor'. rewrite E, skipn_past_block.
    cbn [allocate flat_map map]. unfold window_for at 1 2. rewrite Eb.
    cbn [fst snd]. rewrite <- !app_assoc. reflexivity.
Qed.

Lemma foldM_place_screen_no_slots (self : MainController) (screens : list Screen) :
  (slots_per_screen self <= 0)%Z ->
  forall cursor calls wins,
    foldM (place_screen self) screens (cursor, calls, wins) =
      Some (cursor, calls, wins).
Proof.
  intros Hle. induction screens as [|screen screens IH]; intros cursor calls wins;
    [reflexivity|].
  cbn [foldM]. unfold place_screen at 1.
  replace (Z.to_nat (slots_per_screen self)) with 0 by lia.
  cbn [fill_screen is_empty negb orb].
  replace (0 <? slots_per_screen self)%Z with false
    by (symmetry; apply Z.ltb_ge; lia).
  cbn [bind ret]. apply IH.
Qed.

Lemma built_pages (ps : list Page) (interval x y width height slots : Z) :
  MultiScreenWindow.pages (snd (built ps interval x y width height slots)) = ps.
Proof.
  unfold built. now destruct (get_grid_for_slots slots).
Qed.

Lemma allocate_length (interval slots : Z) (n : nat) (screens : list Screen) :
  forall rest, List.length (allocate interval slots n rest screens) = List.length screens.
Proof.
  induction screens as [|s screens IH]; intros rest; [reflexivity|].
  cbn. now rewrite IH.
Qed.

Lemma allocate_nth (interval slots : Z) (n : nat) (screens : list Screen) :
  forall rest i screen,
    nth_error screens i = Some screen ->
    nth_error (allocate interval slots n rest screens) i =
      Some (window_for interval slots screen (firstn n (skipn (i * n) rest))).
Proof.
  induction screens as [|s screens IH]; intros rest [|i] screen H;
    cbn in H; try discriminate.
  - inversion H; subst. reflexivity.
  - cbn [allocate nth_error]. rewrite (IH _ _ _ H), skipn_skipn.
    replace (S i * n) with (i * n + n) by lia. reflexivity.
Qed.

Lemma firstn_add {A} (a b : nat) : forall l : list A,
  firstn (a + b) l = firstn a l ++ firstn b (skipn a l).
Proof.
  induction a as [|a IH]; intros [|h l]; cbn; try reflexivity.
  - now rewrite firstn_nil.
  - now rewrite IH.
Qed.

Lemma allocate_pages (interval slots : Z) (n : nat) (screens : list Screen) :
  forall rest,
    List.concat (map (fun cw => MultiScreenWindow.pages (snd cw))
                (allocate interval slots n rest screens))
    = firstn (List.length screens * n) rest.
Proof.
  induction screens as [|s screens IH]; intros rest; [reflexivity|].
  cbn [allocate map List.concat List.length]. unfold window_for at 1.
  rewrite built_pages, IH.
  replace (S (List.length screens) * n) with (n + List.length screens * n) by lia.
  symmetry. apply firstn_add.
Qed.

(** [apply_mode] in multi mode, in closed form. *)
Lemma apply_mode_multi (screens : list Screen) (c : MainController) :
  String.eqb (mode c) "single" = false ->
  let alloc := allocate (refresh_interval c) (slots_per_screen c)
                        (Z.to_nat (slots_per_screen c)) (pages c) screens in
  apply_mode screens c =
    if (0 <? slots_per_screen c)%Z
    then Some (flat_map fst alloc,
               set_windows c (map (fun cw => MultiW (snd cw)) alloc))
    else Some ([], set_windows c []).
Proof.
  intros Hm alloc. unfold apply_mode. cbn [set_windows mode]. rewrite Hm.
  destruct (Z.ltb_spec 0 (slots_per_screen c)) as [Hpos|Hle].
  - destruct (foldM_place_screen (set_windows c []) screens Hpos 0 [] [])
      as (cursor' & E).
    cbn [set_windows pages slots_per_screen refresh_interval skipn app] in E |- *.
    rewrite E. reflexivity.
  - rewrite foldM_place_screen_no_slots by exact Hle. reflexivity.
Qed.

(** [apply_mode] in single mode never raises. *)
Lemma single_init_total (ps : list Page) (interval : Z) :
  exists calls w, SingleScreenWindow.init ps interval = Some (calls, w).
Proof.
  unfold SingleScreenWindow.init, SingleScreenWindow.show_next_page.
  destruct ps; cbn; eauto.
Qed.

End Allocation.

(** ** [apply_mode] in multi mode *)

Section MultiMode.

Lemma mode_not_single (c : MainController) :
  mode c <> "single" -> String.eqb (mode c) "single" = false.
Proof. intros H. now apply String.eqb_neq. Qed.

Lemma built_cell_titles (ps : list Page) (interval gx gy gw gh slots : Z) :
  MultiScreenWindow.cell_titles (snd (built ps interval gx gy gw gh slots)) =
    map (fun i => option_map title (nth_error ps i))
        (seq 0 (fst (get_grid_for_slots slots) * snd (get_grid_for_slots slots))).
Proof.
  unfold built, MultiScreenWindow.cell_titles.
  destruct (get_grid_for_slots slots) as [rows cols]. cbn [snd fst MultiScreenWindow.grid].
  rewrite map_map. apply map_ext. intros i. unfold cell_of. cbn [snd].
  now destruct (nth_error ps i).
Qed.

(** The windows [apply_mode] leaves in multi mode when [slots_per_screen]
    is positive: one per screen, in the order of the screens. *)
Lemma apply_mode_multi_window (screens : list Screen) (c : MainController) :
  mode c <> "single" -> (1 <= slots_per_screen c)%Z ->
  exists calls c1,
    apply_mode screens c = Some (calls, c1)
    /\ List.length (windows c1) = List.length screens
    /\ forall i screen,
        nth_error screens i = Some screen ->
        nth_error (windows c1) i =
          Some (MultiW (snd (window_for (refresh_interval c) (slots_per_screen c) screen
                               (firstn (Z.to_nat (slots_per_screen c))
                                  (skipn (i * Z.to_nat (slots_per_screen c))
                                         (pages c)))))).
Proof.
  intros Hm Hs. rewrite (apply_mode_multi screens c (mode_not_single c Hm)).
  replace (0 <? slots_per_screen c)%Z with true by (symmetry; apply Z.ltb_lt; lia).
  do 2 eexists. split; [reflexivity|]. cbn [set_windows windows]. split.
  - now rewrite length_map, allocate_length.
  - intros i screen Hi.
    rewrite nth_error_map, (allocate_nth _ _ _ _ _ _ _ Hi). reflexivity.
Qed.

(** C1: in multi mode the inner loop of [apply_mode] takes the next
    [slots_per_screen] pages (or those that are left) from the cursor, in
    order, and moves the cursor by the number taken; so the window of screen
    [i], in the order of the screens, holds the block of pages
    [i*slots .. i*slots + slots - 1]; the windows together hold the first
    [screens * slots] pages and the rest is left out without an error.  With
    three screens, two slots and pages [A, B, C, D, E] the cells show
    [A, B], [C, D] and [E, no signal]. *)
Theorem multi_mode_contiguous_blocks
    (screens : list Screen) (c : MainController) :
  mode c <> "single" ->
  let n := Z.to_nat (slots_per_screen c) in
  (forall cursor,
      fill_screen n (pages c) cursor [] =
        (firstn n (skipn cursor (pages c)),
         cursor + List.length (firstn n (skipn cursor (pages c)))))
  /\ (exists calls c1,
        apply_mode screens c = Some (calls, c1)
        /\ ((1 <= slots_per_screen c)%Z ->
            forall i screen,
              nth_error screens i = Some screen ->
              exists w,
                nth_error (windows c1) i = Some (MultiW w)
                /\ MultiScreenWindow.pages w = firstn n (skipn (i * n) (pages c))
                /\ (MultiScreenWindow.x w, MultiScreenWindow.y w,
                    MultiScreenWindow.width w, MultiScreenWindow.height w)
                   = (geo_x screen, geo_y screen, geo_width screen, geo_height screen))
        /\ List.concat (map window_pages (windows c1))
           = firstn (List.length screens * n) (pages c))
  /\ (forall (A B C D E : Page) (s0 s1 s2 : Screen) (interval : Z) (old : list Window),
        exists calls w0 w1 w2,
          apply_mode [s0; s1; s2]
            (mkController "multi" [A; B; C; D; E] interval 2 old)
          = Some (calls,
                  mkController "multi" [A; B; C; D; E] interval 2
                               [MultiW w0; MultiW w1; MultiW w2])
          /\ MultiScreenWindow.pages w0 = [A; B]
          /\ MultiScreenWindow.cell_titles w0 = [Some (title A); Some (title B)]
          /\ MultiScreenWindow.pages w1 = [C; D]
          /\ MultiScreenWindow.cell_titles w1 = [Some (title C); Some (title D)]
          /\ MultiScreenWindow.pages w2 = [E]
          /\ MultiScreenWindow.cell_titles w2 = [Some (title E); None]).
Proof.
  intros Hm n. split; [|split].
  - intros cursor. now rewrite fill_screen_block.
  - destruct (Z.ltb_spec 0 (slots_per_screen c)) as [Hpos|Hle].
    + destruct (apply_mode_multi_window screens c Hm ltac:(lia))
        as (calls & c1 & E & Hlen & Hnth).
      exists calls, c1. split; [exact E|]. split.
      * intros _ i screen Hi. eexists. split; [exact (Hnth i screen Hi)|].
        unfold window_for. rewrite built_pages. split; [reflexivity|].
        unfold built. now destruct (get_grid_for_slots _).
      * rewrite (apply_mode_multi screens c (mode_not_single c Hm)) in E.
        replace (0 <? slots_per_screen c)%Z with true in E
          by (symmetry; now apply Z.ltb_lt).
        inversion E; subst c1. cbn [set_windows windows].
        rewrite map_map. cbn [window_pages]. apply allocate_pages.
    + exists [], (set_windows c []). split; [|split].
      * rewrite (apply_mode_multi screens c (mode_not_single c Hm)).
        replace (0 <? slots_per_screen c)%Z with false
          by (symmetry; apply Z.ltb_ge; lia).
        reflexivity.
      * intros H. lia.
      * subst n. replace (Z.to_nat (slots_per_screen c)) with 0 by lia.
        rewrite Nat.mul_0_r. reflexivity.
  - intros A B C D E s0 s1 s2 interval old.
    rewrite apply_mode_multi by reflexivity.
    do 4 eexists. split; [reflexivity|].
    repeat split.
Qed.

Lemma multi_mode_contiguous_blocks_witness :
  "multi" <> "single"
  /\ List.concat
       (map window_pages
          (match apply_mode [mkScreen 0 0 1920 1080; mkScreen 1920 0 1920 1080]
                   (mkController "multi"
                      [mkPage "A" "a.example"; mkPage "B" "b.example";
                       mkPage "C" "c.example"] 5000 1 [])
           with
           | Some (_, c1) => windows c1
           | None => []
           end))
     = [mkPage "A" "a.example"; mkPage "B" "b.example"].
Proof.
  split; [discriminate|].
  destruct (multi_mode_contiguous_blocks
              [mkScreen 0 0 1920 1080; mkScreen 1920 0 1920 1080]
              (mkController "multi"
                 [mkPage "A" "a.example"; mkPage "B" "b.example";
                  mkPage "C" "c.example"] 5000 1 [])
              ltac:(discriminate)) as (_ & (calls & c1 & E & _ & Hcat) & _).
  rewrite E. exact Hcat.
Defined.

End MultiMode.

(** ** Screens without pages, and screens with more slots than cells *)

Section Capacity.

Lemma built_no_pages (interval gx gy gw gh slots : Z) :
  let w := snd (built [] interval gx gy gw gh slots) in
  let '(rows, cols) := get_grid_for_slots slots in
  fst (built [] interval gx gy gw gh slots) = []
  /\ MultiScreenWindow.pages w = []
  /\ MultiScreenWindow.views w = []
  /\ MultiScreenWindow.grid w =
       map (fun k => (k / cols, k mod cols, MultiScreenWindow.NoSignalWidget))
           (seq 0 (rows * cols)).
Proof.
  unfold built. destruct (get_grid_for_slots slots) as [rows cols].
  cbn [fst snd MultiScreenWindow.pages MultiScreenWindow.views MultiScreenWindow.grid].
  repeat split.
  - induction (seq 0 (rows * cols)) as [|k l IH]; [reflexivity|].
    cbn [flat_map]. rewrite IH. now destruct k.
  - now rewrite firstn_nil.
  - apply map_ext. intros k. unfold cell_of. now destruct k.
Qed.

(** C6: in multi mode with at least one slot per screen, once the pages are
    used up when screen [i] is reached (at most [i * slots] pages), screen
    [i] and every later screen [j] still gets its window, and that window
    holds no page and no web view: every cell of its grid is a no-signal
    widget, and its ticks call nothing.  With two screens, two slots and no
    page at all, both windows show two no-signal cells and neither building
    them nor ticking them calls a web view. *)
Theorem multi_mode_exhausted_cursor_no_signal
    (screens : list Screen) (c : MainController) :
  mode c <> "single" ->
  (1 <= slots_per_screen c)%Z ->
  (exists calls c1,
      apply_mode screens c = Some (calls, c1)
      /\ forall i j screen,
          List.length (pages c) <= i * Z.to_nat (slots_per_screen c) ->
          i <= j ->
          nth_error screens j = Some screen ->
          exists w,
            nth_error (windows c1) j = Some (MultiW w)
            /\ MultiScreenWindow.pages w = []
            /\ MultiScreenWindow.views w = []
            /\ MultiScreenWindow.grid w =
                 map (fun k => (k / snd (get_grid_for_slots (slots_per_screen c)),
                                k mod snd (get_grid_for_slots (slots_per_screen c)),
                                MultiScreenWindow.NoSignalWidget))
                     (seq 0 (fst (get_grid_for_slots (slots_per_screen c))
                             * snd (get_grid_for_slots (slots_per_screen c))))
            /\ fst (MultiScreenWindow.refresh_all_views w) = [])
  /\ (forall (s0 s1 : Screen) (interval : Z) (old : list Window),
        exists w0 w1,
          apply_mode [s0; s1] (mkController "multi" [] interval 2 old)
          = Some ([], mkController "multi" [] interval 2 [MultiW w0; MultiW w1])
          /\ MultiScreenWindow.cell_titles w0 = [None; None]
          /\ MultiScreenWindow.cell_titles w1 = [None; None]
          /\ fst (MultiScreenWindow.refresh_all_views w0) = []
          /\ fst (MultiScreenWindow.refresh_all_views w1) = []).
Proof.
  intros Hm Hs. split.
  - destruct (apply_mode_multi_window screens c Hm Hs)
      as (calls & c1 & E & _ & Hnth).
    exists calls, c1. split; [exact E|].
    intros i j screen Hi Hij Hj. eexists. split; [exact (Hnth j screen Hj)|].
    rewrite (skipn_all2 (pages c)) by nia. rewrite firstn_nil.
    unfold window_for.
    pose proof (built_no_pages (refresh_interval c) (geo_x screen) (geo_y screen)
                  (geo_width screen) (geo_height screen) (slots_per_screen c)) as H.
    cbv zeta in H.
    destruct (get_grid_for_slots (slots_per_screen c)) as [rows cols].
    destruct H as (_ & Hp & Hv & Hg). cbn [fst snd].
    repeat split; try assumption.
    unfold MultiScreenWindow.refresh_all_views. cbn [fst]. now rewrite Hv.
  - intros s0 s1 interval old.
    rewrite apply_mode_multi by reflexivity.
    do 2 eexists. split; [reflexivity|]. repeat split.
Qed.

Lemma multi_mode_exhausted_cursor_no_signal_witness :
  "multi" <> "single" /\ (1 <= 2)%Z
  /\ exists calls c1,
      apply_mode [mkScreen 0 0 1920 1080; mkScreen 1920 0 1920 1080]
        (mkController "multi" [mkPage "A" "a.example"] 5000 2 [])
      = Some (calls, c1)
      /\ exists w,
          nth_error (windows c1) 1 = Some (MultiW w)
          /\ MultiScreenWindow.cell_titles w = [None; None].
Proof.
  split; [discriminate|]. split; [lia|].
  destruct (multi_mode_exhausted_cursor_no_signal
              [mkScreen 0 0 1920 1080; mkScreen 1920 0 1920 1080]
              (mkController "multi" [mkPage "A" "a.example"] 5000 2 [])
              ltac:(discriminate) ltac:(cbn; lia))
    as ((calls & c1 & E & H) & _).
  exists calls, c1. split; [exact E|].
  destruct (H 1 1 (mkScreen 1920 0 1920 1080) ltac:(cbn; lia) ltac:(lia) eq_refl)
    as (w & Hw & _ & _ & Hg & _).
  exists w. split; [exact Hw|].
  unfold MultiScreenWindow.cell_titles. rewrite Hg. reflexivity.
Defined.

Lemma nth_error_block {A} (n a k : nat) (l : list A) (p : A) :
  nth_error (firstn n (skipn a l)) k = Some p ->
  k < n /\ nth_error l (a + k) = Some p.
Proof.
  rewrite nth_error_firstn, nth_error_skipn.
  destruct (Nat.ltb_spec k n); [now split | discriminate].
Qed.

(** Two blocks of [n] pages overlap only when they are the same block. *)
Lemma block_index_unique (n i j k r : nat) :
  k < n -> r < n -> j * n + k = i * n + r -> j = i /\ k = r.
Proof.
  intros Hk Hr H.
  destruct (Nat.lt_trichotomy j i) as [Hlt|[Heq|Hgt]].
  - assert (S j * n <= i * n) by (apply Nat.mul_le_mono_r; lia). cbn in *. lia.
  - subst. split; [reflexivity | lia].
  - assert (S i * n <= j * n) by (apply Nat.mul_le_mono_r; lia). cbn in *. lia.
Qed.

Lemma get_grid_over_16 (slots : Z) :
  (16 < slots)%Z -> get_grid_for_slots slots = (4, 4).
Proof.
  intros H. unfold get_grid_for_slots.
  repeat match goal with
         | |- context [(?a <=? ?b)%Z] => destruct (Z.leb_spec a b); try lia
         | |- context [(?a =? ?b)%Z] => destruct (Z.eqb_spec a b); try lia
         end; reflexivity.
Qed.

(** Pages with pairwise distinct titles sit at one index only. *)
Lemma distinct_titles_index (ps : list Page) (g g' : nat) (p p' : Page) :
  NoDup (map title ps) ->
  nth_error ps g = Some p -> nth_error ps g' = Some p' ->
  title p = title p' -> g = g'.
Proof.
  intros Hnd Hg Hg' Ht.
  apply (proj1 (NoDup_nth_error _) Hnd).
  - rewrite length_map. apply nth_error_Some. congruence.
  - rewrite !nth_error_map, Hg, Hg'. cbn. now rewrite Ht.
Qed.

(** C9: in multi mode with more than 16 slots per screen, the window of
    screen [i] still takes the block of [slots_per_screen] pages that starts
    at [i * slots_per_screen], but its grid has 16 cells, which show the
    first 16 pages of the block.  A page of the block from its 17th on is
    shown in no cell of any window and belongs to the block of no other
    window, whether or not later windows have no-signal cells (pages are
    told apart by their titles, taken pairwise distinct). *)
Theorem multi_mode_over_capacity_loses_pages
    (screens : list Screen) (c : MainController) :
  mode c <> "single" ->
  (16 < slots_per_screen c)%Z ->
  let n := Z.to_nat (slots_per_screen c) in
  exists calls c1,
    apply_mode screens c = Some (calls, c1)
    /\ (forall i screen,
          nth_error screens i = Some screen ->
          exists w,
            nth_error (windows c1) i = Some (MultiW w)
            /\ MultiScreenWindow.pages w = firstn n (skipn (i * n) (pages c))
            /\ List.length (MultiScreenWindow.grid w) = 16
            /\ MultiScreenWindow.cell_titles w =
                 map (fun k => option_map title
                                 (nth_error (MultiScreenWindow.pages w) k))
                     (seq 0 16)
            /\ MultiScreenWindow.views w =
                 map view_of (firstn 16 (MultiScreenWindow.pages w)))
    /\ (NoDup (map title (pages c)) ->
        forall i g p,
          i < List.length screens ->
          i * n + 16 <= g < i * n + n ->
          nth_error (pages c) g = Some p ->
          forall j w,
            nth_error (windows c1) j = Some (MultiW w) ->
            ~ In (Some (title p)) (MultiScreenWindow.cell_titles w)
            /\ (j <> i -> ~ In p (MultiScreenWindow.pages w))).
Proof.
  intros Hm Hs n.
  destruct (apply_mode_multi_window screens c Hm ltac:(lia))
    as (calls & c1 & E & Hlen & Hnth).
  exists calls, c1. split; [exact E|].
  assert (Hwin : forall j w, nth_error (windows c1) j = Some (MultiW w) ->
            MultiScreenWindow.pages w = firstn n (skipn (j * n) (pages c))
            /\ MultiScreenWindow.cell_titles w =
                 map (fun k => option_map title
                                 (nth_error (MultiScreenWindow.pages w) k))
                     (seq 0 16)).
  { intros j w Hw.
    assert (Hj : j < List.length screens).
    { rewrite <- Hlen. apply nth_error_Some. congruence. }
    destruct (nth_error screens j) as [screen|] eqn:Es;
      [|apply nth_error_None in Es; lia].
    rewrite (Hnth j screen Es) in Hw. inversion Hw; subst w.
    unfold window_for. rewrite built_pages, built_cell_titles.
    rewrite (get_grid_over_16 _ Hs). split; reflexivity. }
  split.
  - intros i screen Hi. eexists. split; [exact (Hnth i screen Hi)|].
    destruct (Hwin i _ (Hnth i screen Hi)) as (Hp & Ht).
    split; [exact Hp|]. split; [|split; [exact Ht|]].
    + unfold window_for, built. rewrite (get_grid_over_16 _ Hs).
      cbn [snd MultiScreenWindow.grid]. now rewrite length_map, length_seq.
    + unfold window_for, built. rewrite (get_grid_over_16 _ Hs). reflexivity.
  - intros Hnd i g p Hi Hg Hp j w Hw.
    destruct (Hwin j w Hw) as (Hpw & Htw). split.
    + rewrite Htw. intros Hin. apply in_map_iff in Hin.
      destruct Hin as (k & Hk & Hks). apply in_seq in Hks.
      destruct (nth_error (MultiScreenWindow.pages w) k) as [p'|] eqn:Ek;
        [|discriminate].
      cbn in Hk. inversion Hk as [Ht].
      rewrite Hpw in Ek. apply nth_error_block in Ek. destruct Ek as (Hkn & Ek).
      pose proof (distinct_titles_index _ _ _ _ _ Hnd Ek Hp Ht) as Hidx.
      destruct (block_index_unique n i j k (g - i * n)) as (_ & Hkr); lia.
    + intros Hji Hin. rewrite Hpw in Hin.
      apply In_nth_error in Hin. destruct Hin as (k & Ek).
      apply nth_error_block in Ek. destruct Ek as (Hkn & Ek).
      pose proof (distinct_titles_index _ _ _ _ _ Hnd Ek Hp eq_refl) as Hidx.
      destruct (block_index_unique n i j k (g - i * n)) as (Hj & _); lia.
Qed.

End Capacity.

Lemma multi_mode_over_capacity_loses_pages_witness :
  "multi" <> "single" /\ (16 < 17)%Z
  /\ exists calls c1,
      apply_mode [mkScreen 0 0 1920 1080; mkScreen 1920 0 1920 1080]
        (mkController "multi" lettered_pages 5000 17 []) = Some (calls, c1)
      /\ (exists w1,
            nth_error (windows c1) 1 = Some (MultiW w1)
            /\ MultiScreenWindow.pages w1 = [mkPage "R" "page.example"])
      /\ forall j w,
          nth_error (windows c1) j = Some (MultiW w) ->
          ~ In (Some "Q") (MultiScreenWindow.cell_titles w).
Proof.
  split; [discriminate|]. split; [lia|].
  destruct (multi_mode_over_capacity_loses_pages
              [mkScreen 0 0 1920 1080; mkScreen 1920 0 1920 1080]
              (mkController "multi" lettered_pages 5000 17 [])
              ltac:(discriminate) ltac:(cbn; lia))
    as (calls & c1 & E & Hblock & Hlost).
  exists calls, c1. split; [exact E|]. split.
  - destruct (Hblock 1 (mkScreen 1920 0 1920 1080) eq_refl) as (w1 & Hw1 & Hp & _).
    exists w1. split; [exact Hw1 | exact Hp].
  - intros j w Hw.
    refine (proj1 (Hlost _ 0 16 (mkPage "Q" "page.example") _ _ eq_refl j w Hw)).
    + cbn. repeat (constructor; [cbn; intuition discriminate|]). constructor.
    + cbn. lia.
    + cbn. lia.
Defined.

(** ** Rebuilding twice *)

Section Rebuild.

Lemma apply_mode_ignores_windows (screens : list Screen) (c : MainController)
    (ws : list Window) :
  apply_mode screens (set_windows c ws) = apply_mode screens c.
Proof. reflexivity. Qed.

Lemma apply_mode_total (screens : list Screen) (c : MainController) :
  exists calls wins, apply_mode screens c = Some (calls, set_windows c wins).
Proof.
  destruct (String.eqb (mode c) "single") eqn:Hm.
  - unfold apply_mode. cbn [set_windows mode pages refresh_interval]. rewrite Hm.
    destruct (single_init_total (pages c) (refresh_interval c)) as (calls & w & E).
    rewrite E. now do 2 eexists.
  - rewrite (apply_mode_multi screens c Hm).
    destruct (0 <? slots_per_screen c)%Z; now do 2 eexists.
Qed.

(** C5: [apply_mode] never raises, leaves the configuration as it was, and
    is idempotent: run again on its own result, or on that result after its
    windows have got into any other state (ticked, rotated, closed), it makes
    the same calls and ends with the same controller, so every window shows
    the same pages in the same cells.  In single mode the rebuilt window is
    the one [__init__] makes from [current_index = 0] whatever index the
    replaced window had reached. *)
Theorem apply_mode_idempotent (screens : list Screen) (c : MainController) :
  exists calls c1,
    apply_mode screens c = Some (calls, c1)
    /\ (mode c1, pages c1, refresh_interval c1, slots_per_screen c1)
       = (mode c, pages c, refresh_interval c, slots_per_screen c)
    /\ apply_mode screens c1 = Some (calls, c1)
    /\ (forall ws, apply_mode screens (set_windows c1 ws) = Some (calls, c1))
    /\ (mode c = "single" ->
        exists w,
          windows c1 = [SingleW w]
          /\ SingleScreenWindow.current_index
               (SingleScreenWindow.fresh (pages c) (refresh_interval c)) = 0
          /\ SingleScreenWindow.show_next_page
               (SingleScreenWindow.fresh (pages c) (refresh_interval c))
             = Some (calls, w)).
Proof.
  destruct (apply_mode_total screens c) as (calls & wins & E).
  exists calls, (set_windows c wins).
  split; [exact E|]. split; [reflexivity|].
  split; [rewrite apply_mode_ignores_windows; exact E|].
  split; [intros ws; rewrite !apply_mode_ignores_windows; exact E|].
  intros Hm. unfold apply_mode in E.
  cbn [set_windows mode pages refresh_interval] in E.
  rewrite Hm in E. cbn [String.eqb Ascii.eqb Bool.eqb] in E.
  unfold SingleScreenWindow.init in E.
  destruct (SingleScreenWindow.show_next_page _) as [[calls' w]|] eqn:Es;
    [|discriminate].
  cbn in E. inversion E; subst. exists w. repeat split.
Qed.

End Rebuild.

(** ** Saving the settings *)

Section Settings.

(** When [save_settings] ends with a warning it has not rebuilt the
    windows, called no widget and written no file, and the controller keeps
    its mode, its slots per screen and its windows. *)
Lemma save_settings_warning (screens : list Screen) (form form' : SettingsWindow)
    (calls : list Call) (text : string) :
  save_settings screens form = Some (calls, form', Warning text) ->
  calls = []
  /\ mode (controller form') = mode (controller form)
  /\ slots_per_screen (controller form') = slots_per_screen (controller form)
  /\ windows (controller form') = windows (controller form)
  /\ pages (controller form') = collect_pages (page_list form).
Proof.
  unfold save_settings.
  destruct (PyStr.py_int (PyStr.strip (refresh_input form))) as [interval|].
  - destruct (parse_slots (slots_input form)) as [slots|].
    + destruct (apply_mode _ _) as [[c ctl]|]; cbn; intros H; discriminate H.
    + intros H. inversion H; subst. repeat split.
  - intros H. inversion H; subst. repeat split.
Qed.

(** C4, evaluated on the code: with a refresh interval that is not a
    number, [save_settings] warns and returns without rebuilding, but the
    controller already holds the pages of the form instead of its own; with
    a valid interval and zero slots, it warns and returns with the pages and
    the refresh interval already replaced. *)
Theorem save_settings_invalid_input_changes_controller :
  let ctl := mkController "single" [mkPage "Example 1" "https://example.com"]
                          5000 1 [] in
  let screens := [mkScreen 0 0 1920 1080] in
  (exists form',
      save_settings screens (mkSettings ctl ["New | new.example"] "abc" "1")
      = Some ([], form', Warning "Refresh interval must be a valid integer!")
      /\ pages (controller form') = [mkPage "New" "new.example"]
      /\ pages (controller form') <> pages ctl
      /\ refresh_interval (controller form') = 5000%Z
      /\ windows (controller form') = [])
  /\ (exists form',
        save_settings screens (mkSettings ctl ["New | new.example"] "1000" "0")
        = Some ([], form',
                Warning "Slots per screen must be a valid positive integer!")
        /\ pages (controller form') = [mkPage "New" "new.example"]
        /\ refresh_interval (controller form') = 1000%Z
        /\ refresh_interval (controller form') <> refresh_interval ctl
        /\ slots_per_screen (controller form') = 1%Z).
Proof.
  cbv zeta. split; eexists; (split; [reflexivity|]); cbn;
    repeat split; discriminate.
Qed.

End Settings.

(* ================================================================= *)
(** * Further properties of [main_final.py] *)

(** ** [int(str(n))] *)

Section IntText.

Lemma no_space_strip (s : string) : no_space s -> PyStr.strip s = s.
Proof.
  intros H. unfold PyStr.strip.
  replace (PyStr.lstrip s) with s
    by (destruct s as [|c s]; [reflexivity | cbn; now rewrite (proj1 H)]).
  induction s as [|c s IH]; [reflexivity|].
  destruct H as (Hc & Hs). rewrite (rstrip_nonspace _ _ Hc). now rewrite IH.
Qed.

Lemma digits_no_space (d : Decimal.uint) : no_space (NilEmpty.string_of_uint d).
Proof. induction d; cbn; auto. Qed.

Lemma int_digits_uint (d : Decimal.uint) : forall acc b,
  d <> Decimal.Nil \/ b = true ->
  PyStr.int_digits (NilEmpty.string_of_uint d) acc b = Some (uint_value d acc).
Proof.
  induction d; intros acc b H;
    try (cbn [NilEmpty.string_of_uint PyStr.int_digits uint_value];
         change (PyStr.digit_of _) with (Some 0%Z) ||
         change (PyStr.digit_of _) with (Some 1%Z) ||
         change (PyStr.digit_of _) with (Some 2%Z) ||
         change (PyStr.digit_of _) with (Some 3%Z) ||
         change (PyStr.digit_of _) with (Some 4%Z) ||
         change (PyStr.digit_of _) with (Some 5%Z) ||
         change (PyStr.digit_of _) with (Some 6%Z) ||
         change (PyStr.digit_of _) with (Some 7%Z) ||
         change (PyStr.digit_of _) with (Some 8%Z) ||
         change (PyStr.digit_of _) with (Some 9%Z);
         apply IHd; now right).
  destruct H as [H|H]; [congruence | subst; reflexivity].
Qed.

Lemma of_uint_acc_value (d : Decimal.uint) : forall p,
  Z.pos (Pos.of_uint_acc d p) = uint_value d (Z.pos p).
Proof.
  induction d; intros p; cbn [Pos.of_uint_acc uint_value];
    [reflexivity | rewrite IHd; f_equal; lia ..].
Qed.

Lemma of_uint_value (d : Decimal.uint) :
  Z.of_N (Pos.of_uint d) = uint_value d 0.
Proof.
  induction d; cbn [Pos.of_uint uint_value];
    [reflexivity | exact IHd | cbn [Z.of_N]; now rewrite of_uint_acc_value ..].
Qed.

Lemma py_int_digits (p : positive) :
  PyStr.int_digits (NilEmpty.string_of_uint (Pos.to_uint p)) 0 false
  = Some (Z.pos p).
Proof.
  rewrite int_digits_uint by (left; apply DecimalPos.Unsigned.to_uint_nonnil).
  rewrite <- of_uint_value, DecimalPos.Unsigned.of_to. reflexivity.
Qed.

Lemma string_of_uint_nonnil (d : Decimal.uint) :
  d <> Decimal.Nil -> NilZero.string_of_uint d = NilEmpty.string_of_uint d.
Proof. destruct d; [congruence | reflexivity ..]. Qed.

Lemma digits_head (d : Decimal.uint) (r : Z) :
  d <> Decimal.Nil ->
  PyStr.int_digits (NilEmpty.string_of_uint d) 0 false = Some r ->
  match NilEmpty.string_of_uint d with
  | String "+"%char t => PyStr.int_digits t 0 false
  | String "-"%char t => option_map Z.opp (PyStr.int_digits t 0 false)
  | t => PyStr.int_digits t 0 false
  end = Some r.
Proof. destruct d; [congruence | intros _ H; exact H ..]. Qed.

Lemma int_of_str_plain (z : Z) : PyStr.py_int (py_str_int z) = Some z.
Proof.
  destruct z as [|p|p]; [reflexivity | |];
    unfold py_str_int, PyStr.py_int; cbn [Z.to_int NilZero.string_of_int];
    rewrite (string_of_uint_nonnil _ (DecimalPos.Unsigned.to_uint_nonnil p)).
  - rewrite (no_space_strip _ (digits_no_space _)).
    apply digits_head; [apply DecimalPos.Unsigned.to_uint_nonnil|].
    apply py_int_digits.
  - rewrite no_space_strip by (split; [reflexivity | apply digits_no_space]).
    now rewrite py_int_digits.
Qed.

Lemma int_of_str_roundtrip (z : Z) :
  PyStr.py_int (PyStr.strip (py_str_int z)) = Some z
  /\ PyStr.py_int (py_str_int z) = Some z.
Proof.
  split; [|apply int_of_str_plain].
  unfold PyStr.py_int. rewrite strip_idempotent. apply int_of_str_plain.
Qed.


End IntText.

(** ** The list items of the settings window *)

Section Items.

Lemma prefix_append (s r : string) : String.prefix s (s ++ r) = true.
Proof.
  induction s as [|c s IH]; [now destruct r|].
  cbn. now destruct (ascii_dec c c).
Qed.

Lemma drop_append (s r : string) : PyStr.drop (String.length s) (s ++ r) = r.
Proof. induction s as [|c s IH]; [reflexivity | exact IH]. Qed.

Lemma split_once_clean (sep t u : string) :
  clean_before sep t (sep ++ u) ->
  PyStr.split_once sep (t ++ sep ++ u) = Some (t, u).
Proof.
  induction t as [|c t IH]; intros H.
  - cbn [append].
    destruct (sep ++ u)%string eqn:E; cbn [PyStr.split_once];
      rewrite <- E, prefix_append, drop_append; reflexivity.
  - destruct H as (Hc & Ht). cbn [append PyStr.split_once].
    cbn [append] in Hc. rewrite Hc, (IH Ht). reflexivity.
Qed.

Lemma substring_drop (n : nat) : forall s,
  (substring 0 n s ++ PyStr.drop n s)%string = s.
Proof.
  induction n as [|n IH]; intros [|d s]; cbn; try reflexivity.
  now rewrite IH.
Qed.

(** The item of a page always holds a separator; it is split at the first
    one, which cuts the title where the separator first shows up. *)
Lemma split_once_item (sep t u : string) :
  exists a b,
    PyStr.split_once sep (t ++ sep ++ u) = Some (a, b)
    /\ String.prefix a t = true
    /\ (a ++ sep ++ b = t ++ sep ++ u)%string.
Proof.
  induction t as [|c t (a & b & E & Hp & Hab)].
  - exists EmptyString, u. split; [|split; reflexivity].
    apply (split_once_clean sep EmptyString u). exact I.
  - destruct (String.prefix sep (String c t ++ sep ++ u)) eqn:Hpre.
    + exists EmptyString, (PyStr.drop (String.length sep) (String c t ++ sep ++ u)).
      cbn [append PyStr.split_once] in *. rewrite Hpre.
      split; [reflexivity|]. split; [reflexivity|].
      apply prefix_correct in Hpre.
      rewrite <- Hpre at 1. apply substring_drop.
    + exists (String c a), b. cbn [append PyStr.split_once] in *.
      rewrite Hpre, E. split; [reflexivity|]. split.
      * cbn. now destruct (ascii_dec c c).
      * now rewrite Hab.
Qed.

Lemma bar_prefix_extends (c : ascii) (t u : string) :
  String.prefix " | " (String c t ++ " ") = false ->
  String.prefix " | " (String c t ++ " | " ++ u) = false.
Proof.
  destruct t as [|d [|e t]]; cbn [append String.prefix];
    repeat match goal with
           | |- context [ascii_dec ?a ?b] => destruct (ascii_dec a b)
           end; try reflexivity; try congruence.
  intros H. destruct t; discriminate H.
Qed.

Lemma clean_before_bar (t u : string) :
  contains (t ++ " ") " | " = false -> clean_before " | " t (" | " ++ u).
Proof.
  unfold contains. induction t as [|c t IH]; intros H; [exact I|].
  cbn [append PyStr.split_once] in H.
  destruct (String.prefix " | " (String c (t ++ " "))) eqn:Hpre; [discriminate|].
  split.
  - apply bar_prefix_extends. exact Hpre.
  - apply IH. destruct (PyStr.split_once " | " (t ++ " ")) as [[a b]|];
      [discriminate | reflexivity].
Qed.

Lemma collect_pages_cons (item : string) (items : list string) :
  collect_pages (item :: items) = collect_pages [item] ++ collect_pages items.
Proof. unfold collect_pages. cbn [flat_map]. now rewrite app_nil_r. Qed.

Lemma collect_items_roundtrip (ps : list Page) :
  (forall p, In p ps -> contains (title p ++ " ") " | " = false) ->
  collect_pages (map item_text ps) = ps.
Proof.
  intros H. induction ps as [|[t u] ps IH]; [reflexivity|].
  cbn [map]. rewrite collect_pages_cons.
  rewrite IH by (intros p Hp; apply H; now right).
  unfold collect_pages, item_text. cbn [flat_map title url].
  rewrite split_once_clean by (apply clean_before_bar, (H (mkPage t u)); now left).
  reflexivity.
Qed.

(** X2: the list items that [SettingsWindow.__init__] makes of the
    controller's pages are read back by [save_settings] as the same pages, in
    the same order, provided no title followed by a space contains [" | "]
    (the title neither contains [" | "] nor ends with [" |"]). *)
Theorem collect_pages_of_items (ctl : MainController) :
  (forall p, In p (pages ctl) -> contains (title p ++ " ") " | " = false) ->
  collect_pages (page_list (SettingsWindow_init ctl)) = pages ctl.
Proof.
  cbn [SettingsWindow_init page_list]. generalize (pages ctl).
  intros ps H. induction ps as [|[t u] ps IH]; [reflexivity|].
  cbn [map]. rewrite collect_pages_cons.
  rewrite IH by (intros p Hp; apply H; now right).
  unfold collect_pages, item_text. cbn [flat_map title url].
  rewrite split_once_clean by (apply clean_before_bar, (H (mkPage t u)); now left).
  reflexivity.
Qed.

Lemma collect_pages_of_items_witness :
  contains ("News|world" ++ " ") " | " = false
  /\ collect_pages
       (page_list (SettingsWindow_init
                     (mkController "multi" [mkPage "News|world" "n.example"]
                                   5000 2 [])))
     = [mkPage "News|world" "n.example"].
Proof.
  split; [reflexivity|].
  apply (collect_pages_of_items
           (mkController "multi" [mkPage "News|world" "n.example"] 5000 2 [])).
  intros p [<-|[]]. reflexivity.
Defined.

(** X3: [save_settings] drops no item that [SettingsWindow.__init__] or
    [add_page_to_list] made: every item yields one page, in order, whose own
    item text is the same; its title is the part of the original title
    before the first [" | "] of the item (so a title that holds a separator
    comes back cut short, the rest moved into the URL). *)
Theorem collect_pages_splits_at_first_separator (ps : list Page) :
  Forall2 (fun p q => item_text q = item_text p
                      /\ String.prefix (title q) (title p) = true)
          ps (collect_pages (map item_text ps))
  /\ collect_pages (map item_text [mkPage "a | b" "x"]) = [mkPage "a" "b | x"]
  /\ collect_pages (map item_text [mkPage "a |" "x"]) = [mkPage "a" "| x"].
Proof.
  split; [|split; reflexivity].
  induction ps as [|[t u] ps IH]; [constructor|].
  cbn [map]. rewrite collect_pages_cons.
  destruct (split_once_item " | " t u) as (a & b & E & Hp & Hab).
  replace (collect_pages [item_text (mkPage t u)]) with [mkPage a b]
    by (unfold collect_pages, item_text; cbn [flat_map title url];
        now rewrite E).
  cbn [app]. constructor; [|exact IH].
  unfold item_text. cbn [title url]. split; assumption.
Qed.

End Items.

(** ** Saving, adding and toggling in the settings window *)

Section Form.



Lemma parse_slots_py_str_int (n : Z) :
  parse_slots (py_str_int n) = if (n <? 1)%Z then None else Some n.
Proof.
  unfold parse_slots. now rewrite (proj1 (int_of_str_roundtrip n)).
Qed.


(** X5: opening the settings window on a controller and saving at once
    changes nothing: when the controller has at least one slot per screen
    and titles that split cleanly, [save_settings] on the form that
    [__init__] built rebuilds the windows exactly as [apply_mode] does on the
    controller and saves the controller's own four settings. *)
Theorem save_after_open_keeps_config (screens : list Screen) (ctl : MainController) :
  (1 <= slots_per_screen ctl)%Z ->
  (forall p, In p (pages ctl) -> contains (title p ++ " ") " | " = false) ->
  exists calls ctl',
    apply_mode screens ctl = Some (calls, ctl')
    /\ save_settings screens (SettingsWindow_init ctl)
       = Some (calls, with_controller (SettingsWindow_init ctl) ctl',
               SavedAndApplied (mkConfig (pages ctl) (refresh_interval ctl)
                                         (mode ctl) (slots_per_screen ctl)))
    /\ (mode ctl', pages ctl', refresh_interval ctl', slots_per_screen ctl')
       = (mode ctl, pages ctl, refresh_interval ctl, slots_per_screen ctl).
Proof.
  intros Hs Ht.
  destruct (apply_mode_total screens ctl) as (calls & wins & E).
  exists calls, (set_windows ctl wins). split; [exact E|]. split; [|reflexivity].
  unfold save_settings. change (page_list (SettingsWindow_init ctl)) with (map item_text (pages ctl));
    rewrite (collect_items_roundtrip (pages ctl) Ht).
  cbn [SettingsWindow_init refresh_input slots_input controller].
  rewrite (proj1 (int_of_str_roundtrip _)), parse_slots_py_str_int.
  destruct (Z.ltb_spec (slots_per_screen ctl) 1); [lia|].
  change (apply_mode screens _) with (apply_mode screens ctl) at 1.
  rewrite E. reflexivity.
Qed.

Lemma save_after_open_keeps_config_witness :
  (1 <= 2)%Z
  /\ contains ("Example 1" ++ " ") " | " = false
  /\ exists calls ctl',
      save_settings [mkScreen 0 0 1920 1080]
        (SettingsWindow_init
           (mkController "multi" [mkPage "Example 1" "https://example.com"]
                         5000 2 []))
      = Some (calls,
              with_controller
                (SettingsWindow_init
                   (mkController "multi" [mkPage "Example 1" "https://example.com"]
                                 5000 2 [])) ctl',
              SavedAndApplied
                (mkConfig [mkPage "Example 1" "https://example.com"] 5000 "multi" 2)).
Proof.
  split; [lia|]. split; [reflexivity|].
  destruct (save_after_open_keeps_config [mkScreen 0 0 1920 1080]
              (mkController "multi" [mkPage "Example 1" "https://example.com"]
                            5000 2 []))
    as (calls & ctl' & _ & E & _).
  - cbn. lia.
  - intros p [<-|[]]. reflexivity.
  - exists calls, ctl'. exact E.
Defined.

(** X6: a controller whose slots per screen are below 1 (a value that
    [load_config] lets through) cannot be saved from the settings window as
    it stands: [save_settings] on the form that [__init__] built ends with
    the slots warning, without rebuilding the windows. *)
Theorem save_after_open_rejects_bad_slots (screens : list Screen) (ctl : MainController) :
  (slots_per_screen ctl < 1)%Z ->
  exists form',
    save_settings screens (SettingsWindow_init ctl)
    = Some ([], form', Warning "Slots per screen must be a valid positive integer!")
    /\ windows (controller form') = windows ctl
    /\ slots_per_screen (controller form') = slots_per_screen ctl.
Proof.
  intros Hs. unfold save_settings.
  cbn [SettingsWindow_init refresh_input slots_input controller page_list].
  rewrite (proj1 (int_of_str_roundtrip _)), parse_slots_py_str_int.
  destruct (Z.ltb_spec (slots_per_screen ctl) 1); [|lia].
  eexists. split; [reflexivity|]. split; reflexivity.
Qed.

Lemma save_after_open_rejects_bad_slots_witness :
  (0 < 1)%Z
  /\ exists form',
      save_settings [mkScreen 0 0 1920 1080]
        (SettingsWindow_init (mkController "multi" [] 5000 0 []))
      = Some ([], form', Warning "Slots per screen must be a valid positive integer!").
Proof.
  split; [lia|].
  destruct (save_after_open_rejects_bad_slots [mkScreen 0 0 1920 1080]
              (mkController "multi" [] 5000 0 []) ltac:(cbn; lia))
    as (form' & E & _).
  exists form'. exact E.
Defined.



End Form.

Section FormEdits.

Lemma collect_pages_app (l1 l2 : list string) :
  collect_pages (l1 ++ l2) = collect_pages l1 ++ collect_pages l2.
Proof. unfold collect_pages. apply flat_map_app. Qed.

Lemma str_is_empty_false (s : string) : str_is_empty s = false <-> s <> EmptyString.
Proof. destruct s; cbn; split; congruence. Qed.

(** X8: [add_page_to_list] strips both inputs.  If either is then empty
    it shows the information box and changes nothing.  Otherwise it appends
    one item, empties both inputs and leaves the controller and the other
    widgets alone; and when the stripped title splits cleanly, a later
    [save_settings] reads the new item as the page of the stripped title and
    URL, after the pages of the items that were there. *)
Theorem add_page_to_list_appends_page (self : SettingsForm) :
  let new_title := PyStr.strip (title_input self) in
  let new_url := PyStr.strip (url_input self) in
  (new_title = EmptyString \/ new_url = EmptyString ->
     add_page_to_list self = (self, Some "Please enter both title and URL!"))
  /\ (new_title <> EmptyString -> new_url <> EmptyString ->
      exists self',
        add_page_to_list self = (self', None)
        /\ page_list (window self')
           = page_list (window self) ++ [item_text (mkPage new_title new_url)]
        /\ (title_input self', url_input self', mode_button self')
           = (EmptyString, EmptyString, mode_button self)
        /\ (controller (window self'), refresh_input (window self'),
            slots_input (window self'))
           = (controller (window self), refresh_input (window self),
              slots_input (window self))
        /\ (contains (new_title ++ " ") " | " = false ->
            collect_pages (page_list (window self'))
            = collect_pages (page_list (window self))
              ++ [mkPage new_title new_url])).
Proof.
  intros new_title new_url. unfold add_page_to_list.
  fold new_title. fold new_url. split.
  - intros [H|H]; rewrite H; cbn; [reflexivity | now rewrite orb_true_r].
  - intros Ht Hu.
    rewrite (proj2 (str_is_empty_false _) Ht), (proj2 (str_is_empty_false _) Hu).
    cbn [orb]. eexists. split; [reflexivity|].
    cbn [window with_page_list page_list title_input url_input mode_button
         controller refresh_input slots_input].
    repeat split.
    intros Hc. rewrite collect_pages_app. f_equal.
    unfold collect_pages, item_text. cbn [flat_map title url].
    rewrite split_once_clean by (now apply clean_before_bar). reflexivity.
Qed.



Lemma apply_mode_by_config (screens : list Screen) (c : MainController)
    (ws : list Window) :
  apply_mode screens c
  = apply_mode screens
      (mkController (mode c) (pages c) (refresh_interval c)
                    (slots_per_screen c) ws).
Proof. reflexivity. Qed.

Lemma set_mode_total (screens : list Screen) (ctl : MainController) (m : string) :
  exists calls wins,
    set_mode screens ctl m
    = Some (calls, mkController m (pages ctl) (refresh_interval ctl)
                                (slots_per_screen ctl) wins)
    /\ apply_mode screens
         (mkController m (pages ctl) (refresh_interval ctl)
                       (slots_per_screen ctl) [])
       = Some (calls, mkController m (pages ctl) (refresh_interval ctl)
                                   (slots_per_screen ctl) wins).
Proof.
  unfold set_mode.
  destruct (apply_mode_total screens
              (mkController m (pages ctl) (refresh_interval ctl)
                            (slots_per_screen ctl) (windows ctl)))
    as (calls & wins & E).
  exists calls, wins. split; exact E.
Qed.

Lemma toggle_mode_step (screens : list Screen) (self : SettingsForm) :
  let ctl := controller (window self) in
  let new_mode := if String.eqb (mode ctl) "single" then "multi" else "single" in
  exists calls self',
    toggle_mode screens self = Some (calls, self')
    /\ mode (controller (window self')) = new_mode
    /\ (pages (controller (window self')),
        refresh_interval (controller (window self')),
        slots_per_screen (controller (window self')))
       = (pages ctl, refresh_interval ctl, slots_per_screen ctl)
    /\ apply_mode screens
         (mkController new_mode (pages ctl) (refresh_interval ctl)
                       (slots_per_screen ctl) [])
       = Some (calls, controller (window self'))
    /\ mode_button self'
       = (if String.eqb new_mode "single"
          then "Switch to Multi-Screen Mode"
          else "Switch to Single-Screen Mode")
    /\ (page_list (window self'), refresh_input (window self'),
        slots_input (window self'), title_input self', url_input self')
       = (page_list (window self), refresh_input (window self),
          slots_input (window self), title_input self, url_input self).
Proof.
  intros ctl new_mode. unfold toggle_mode. fold ctl.
  destruct (set_mode_total screens ctl new_mode) as (calls & wins & E & Ea).
  exists calls. subst new_mode.
  destruct (String.eqb (mode ctl) "single"); rewrite E; cbn [bind ret];
    eexists; (split; [reflexivity|]); cbn; repeat split; exact Ea.
Qed.

(** X10: [toggle_mode] never raises.  It turns ["single"] into
    ["multi"] and every other mode, ["multi"] or not, into ["single"];
    it rebuilds the windows for the new mode from the same pages, interval
    and slots; and the button then names the mode a further click leads to. *)
Theorem toggle_mode_flips (screens : list Screen) (self : SettingsForm) :
  let ctl := controller (window self) in
  let new_mode := if String.eqb (mode ctl) "single" then "multi" else "single" in
  exists calls self',
    toggle_mode screens self = Some (calls, self')
    /\ mode (controller (window self')) = new_mode
    /\ (pages (controller (window self')),
        refresh_interval (controller (window self')),
        slots_per_screen (controller (window self')))
       = (pages ctl, refresh_interval ctl, slots_per_screen ctl)
    /\ apply_mode screens
         (mkController new_mode (pages ctl) (refresh_interval ctl)
                       (slots_per_screen ctl) [])
       = Some (calls, controller (window self'))
    /\ mode_button self'
       = (if String.eqb new_mode "single"
          then "Switch to Multi-Screen Mode"
          else "Switch to Single-Screen Mode")
    /\ (page_list (window self'), refresh_input (window self'),
        slots_input (window self'), title_input self', url_input self')
       = (page_list (window self), refresh_input (window self),
          slots_input (window self), title_input self, url_input self).
Proof.
  intros ctl new_mode. unfold toggle_mode. fold ctl.
  destruct (set_mode_total screens ctl new_mode) as (calls & wins & E & Ea).
  exists calls. subst new_mode.
  destruct (String.eqb (mode ctl) "single"); rewrite E; cbn [bind ret];
    eexists; (split; [reflexivity|]); cbn; repeat split; exact Ea.
Qed.

(** X11: from mode ["single"] or ["multi"], two clicks on the mode
    button bring the mode back, and the windows are then the ones
    [apply_mode] builds for the controller as it was. *)
Theorem toggle_mode_twice_restores (screens : list Screen) (self : SettingsForm) :
  mode (controller (window self)) = "single"
  \/ mode (controller (window self)) = "multi" ->
  exists calls1 self1 calls2 self2,
    toggle_mode screens self = Some (calls1, self1)
    /\ toggle_mode screens self1 = Some (calls2, self2)
    /\ mode (controller (window self1)) <> mode (controller (window self))
    /\ mode (controller (window self2)) = mode (controller (window self))
    /\ apply_mode screens (controller (window self))
       = Some (calls2, controller (window self2))
    /\ mode_button self2 = mode_button (SettingsForm_init (controller (window self))).
Proof.
  intros Hm.
  destruct (toggle_mode_step screens self)
    as (calls1 & self1 & E1 & Hm1 & Hc1 & _ & _ & _).
  destruct (toggle_mode_step screens self1)
    as (calls2 & self2 & E2 & Hm2 & _ & Ha2 & Hb2 & _).
  exists calls1, self1, calls2, self2.
  split; [exact E1|]. split; [exact E2|].
  inversion Hc1 as [[Hp Hr Hs]]. rewrite Hp, Hr, Hs in Ha2.
  pose proof (eq_refl : String.eqb "single" "single" = true) as Ess.
  pose proof (eq_refl : String.eqb "multi" "single" = false) as Ems.
  rewrite (apply_mode_by_config screens (controller (window self)) []).
  unfold SettingsForm_init, update_mode_button_text.
  cbn [mode_button window SettingsWindow_init controller].
  destruct Hm as [Hm|Hm]; rewrite Hm in *; rewrite ?Ess, ?Ems in Hm1;
    rewrite Hm1 in Hm2, Ha2, Hb2; rewrite ?Ess, ?Ems in Hm2, Ha2, Hb2;
    rewrite ?Ess, ?Ems;
    (split; [congruence|]); (split; [congruence|]); split; assumption.
Qed.

Lemma toggle_mode_twice_restores_witness :
  ("multi" = "single" \/ "multi" = "multi")
  /\ exists calls1 self1 calls2 self2,
      toggle_mode [mkScreen 0 0 1920 1080]
        (SettingsForm_init (mkController "multi" [] 5000 1 []))
      = Some (calls1, self1)
      /\ toggle_mode [mkScreen 0 0 1920 1080] self1 = Some (calls2, self2)
      /\ mode (controller (window self2)) = "multi".
Proof.
  split; [now right|].
  destruct (toggle_mode_twice_restores [mkScreen 0 0 1920 1080]
              (SettingsForm_init (mkController "multi" [] 5000 1 []))
              (or_intror eq_refl))
    as (calls1 & self1 & calls2 & self2 & E1 & E2 & _ & Hm & _).
  exists calls1, self1, calls2, self2.
  split; [exact E1|]. split; [exact E2 | exact Hm].
Defined.

End FormEdits.

(** ** More on [format_url] and on the grid of a window *)

Section Shapes.

(** X12: whatever the input, the URL that [format_url] returns starts
    with ["http://"] or ["https://"], is not empty and has no white space
    at either end. *)
Theorem format_url_result_is_normal (u : string) :
  PyStr.startswith (format_url u) "http://"
  || PyStr.startswith (format_url u) "https://" = true
  /\ format_url u <> EmptyString
  /\ PyStr.strip (format_url u) = format_url u
  /\ PyStr.lstrip (format_url u) = format_url u
  /\ PyStr.rstrip (format_url u) = format_url u.
Proof.
  pose proof (format_url_has_scheme u) as Hs.
  pose proof (format_url_strip_fixed u) as Hf.
  split; [exact Hs|]. split; [|split; [exact Hf|]].
  - intros E. rewrite E in Hs. discriminate Hs.
  - assert (Hl : PyStr.lstrip (format_url u) = format_url u).
    { apply lstrip_fixed. rewrite <- Hf. apply strip_no_leading_space. }
    split; [exact Hl|]. unfold PyStr.strip in Hf. now rewrite Hl in Hf.
Qed.

Lemma row_positions (cols rows : nat) : forall n a,
  a + n <= cols ->
  map (fun i => (i / cols, i mod cols)) (seq (rows * cols + a) n)
  = map (pair rows) (seq a n).
Proof.
  induction n as [|n IHn]; intros a Ha; [reflexivity|].
  cbn [seq map]. f_equal.
  - f_equal.
    + symmetry. apply (Nat.div_unique _ cols rows a); lia.
    + symmetry. apply (Nat.mod_unique _ cols rows a); lia.
  - replace (S (rows * cols + a)) with (rows * cols + S a) by lia.
    apply IHn. lia.
Qed.

Lemma row_major_positions (cols : nat) : forall rows,
  map (fun i => (i / cols, i mod cols)) (seq 0 (rows * cols))
  = grid_positions rows cols.
Proof.
  induction rows as [|rows IH]; [reflexivity|].
  unfold grid_positions in *.
  replace (S rows * cols) with (rows * cols + cols) by lia.
  rewrite seq_app, map_app, IH, seq_S, flat_map_app. cbn [flat_map plus].
  rewrite app_nil_r. f_equal.
  pose proof (row_positions cols rows cols 0 ltac:(lia)) as H.
  rewrite Nat.add_0_r in H. exact H.
Qed.

Lemma grid_positions_NoDup (rows cols : nat) : NoDup (grid_positions rows cols).
Proof.
  unfold grid_positions. induction rows as [|rows IH]; [constructor|].
  rewrite seq_S, flat_map_app. cbn [flat_map plus]. rewrite app_nil_r.
  apply NoDup_app; [exact IH | |].
  - apply NoDup_map_NoDup_ForallPairs; [|apply seq_NoDup].
    intros a b _ _ H. now inversion H.
  - intros [r c] Hin Hin'.
    apply in_flat_map in Hin. destruct Hin as (r' & Hr' & Hin).
    apply in_map_iff in Hin. destruct Hin as (c1 & E1 & _).
    apply in_map_iff in Hin'. destruct Hin' as (c2 & E2 & _).
    apply in_seq in Hr'. inversion E1; inversion E2; subst. lia.
Qed.

Lemma grid_positions_in (rows cols r c : nat) :
  In (r, c) (grid_positions rows cols) <-> r < rows /\ c < cols.
Proof.
  unfold grid_positions. rewrite in_flat_map. split.
  - intros (r' & Hr' & Hin). apply in_map_iff in Hin.
    destruct Hin as (c' & E & Hc'). inversion E; subst.
    apply in_seq in Hr'. apply in_seq in Hc'. lia.
  - intros (Hr & Hc). exists r. split; [apply in_seq; lia|].
    apply in_map, in_seq. lia.
Qed.

(** X13: [MultiScreenWindow.__init__] never raises, and it puts exactly
    one widget at every position of the [rows] by [cols] grid that
    [get_grid_for_slots] gives, row by row from the top left: no position is
    left empty, none is used twice, none lies outside.  It makes one web view
    per page up to the number of cells, and places the window on the
    geometry it was given. *)
Theorem multi_window_fills_grid
    (ps : list Page) (interval gx gy gw gh slots : Z) :
  exists calls w,
    MultiScreenWindow.init ps interval gx gy gw gh slots = Some (calls, w)
    /\ map fst (MultiScreenWindow.grid w)
       = grid_positions (fst (get_grid_for_slots slots))
                        (snd (get_grid_for_slots slots))
    /\ NoDup (map fst (MultiScreenWindow.grid w))
    /\ (forall r c,
          In (r, c) (map fst (MultiScreenWindow.grid w))
          <-> r < fst (get_grid_for_slots slots)
              /\ c < snd (get_grid_for_slots slots))
    /\ List.length (MultiScreenWindow.views w)
       = Nat.min (List.length ps)
                 (fst (get_grid_for_slots slots) * snd (get_grid_for_slots slots))
    /\ (MultiScreenWindow.x w, MultiScreenWindow.y w,
        MultiScreenWindow.width w, MultiScreenWindow.height w)
       = (gx, gy, gw, gh).
Proof.
  exists (fst (built ps interval gx gy gw gh slots)),
         (snd (built ps interval gx gy gw gh slots)).
  split; [rewrite init_built; now destruct (built _ _ _ _ _ _ _)|].
  unfold built. destruct (get_grid_for_slots slots) as [rows cols].
  cbn [fst snd MultiScreenWindow.grid MultiScreenWindow.views
       MultiScreenWindow.x MultiScreenWindow.y
       MultiScreenWindow.width MultiScreenWindow.height].
  assert (E : map fst (map (cell_of ps cols) (seq 0 (rows * cols)))
              = grid_positions rows cols).
  { rewrite map_map. unfold cell_of. cbn [fst]. apply row_major_positions. }
  rewrite E. split; [reflexivity|]. split; [apply grid_positions_NoDup|].
  split; [intros r c; apply grid_positions_in|].
  split; [|reflexivity].
  rewrite length_map, length_firstn. lia.
Qed.

End Shapes.

(** ** What the windows show after [apply_mode] *)

Section Shown.

Lemma in_firstn {A} (n : nat) (l : list A) (x : A) : In x (firstn n l) -> In x l.
Proof.
  intros H. rewrite <- (firstn_skipn n l). apply in_or_app. now left.
Qed.

Lemma loaded_urls_app (c1 c2 : list Call) :
  loaded_urls (c1 ++ c2) = loaded_urls c1 ++ loaded_urls c2.
Proof. apply flat_map_app. Qed.

Lemma loaded_urls_cells (ps : list Page) : forall n a,
  loaded_urls (flat_map (calls_of ps) (seq a n))
  = map (fun p => format_url (url p)) (firstn n (skipn a ps)).
Proof.
  induction n as [|n IH]; intros a; [reflexivity|].
  cbn [seq flat_map]. rewrite loaded_urls_app, IH. unfold calls_of at 1.
  destruct (nth_error ps a) as [page|] eqn:E.
  - rewrite (skipn_nth_error_cons _ _ _ E). reflexivity.
  - apply nth_error_None in E.
    rewrite (skipn_all2 ps) by lia. rewrite (skipn_all2 ps) by lia.
    now rewrite !firstn_nil.
Qed.

Lemma built_urls (ps : list Page) (interval gx gy gw gh slots : Z) :
  loaded_urls (fst (built ps interval gx gy gw gh slots))
  = map MultiScreenWindow.view_url
        (MultiScreenWindow.views (snd (built ps interval gx gy gw gh slots))).
Proof.
  unfold built. destruct (get_grid_for_slots slots) as [rows cols].
  cbn [fst snd MultiScreenWindow.views].
  rewrite loaded_urls_cells, map_map. reflexivity.
Qed.

Lemma built_views (ps : list Page) (interval gx gy gw gh slots : Z) :
  MultiScreenWindow.views (snd (built ps interval gx gy gw gh slots))
  = map view_of
        (firstn (fst (get_grid_for_slots slots) * snd (get_grid_for_slots slots)) ps).
Proof.
  unfold built. now destruct (get_grid_for_slots slots) as [rows cols].
Qed.

Lemma allocate_urls (interval slots : Z) (n : nat) (screens : list Screen) :
  forall rest,
    loaded_urls (flat_map fst (allocate interval slots n rest screens))
    = flat_map window_urls
        (map (fun cw => MultiW (snd cw)) (allocate interval slots n rest screens)).
Proof.
  induction screens as [|s screens IH]; intros rest; [reflexivity|].
  cbn [allocate flat_map map]. rewrite loaded_urls_app, IH.
  unfold window_for at 1 2. cbn [window_urls]. now rewrite built_urls.
Qed.

Lemma allocate_in_pages (interval slots : Z) (n : nat) (screens : list Screen) :
  forall rest cw p,
    In cw (allocate interval slots n rest screens) ->
    In p (MultiScreenWindow.pages (snd cw)) -> In p rest.
Proof.
  intros rest cw p Hcw Hp.
  apply (in_firstn (List.length screens * n)).
  rewrite <- (allocate_pages interval slots n screens rest).
  apply in_concat. exists (MultiScreenWindow.pages (snd cw)).
  split; [|exact Hp].
  apply in_map_iff. now exists cw.
Qed.

(** X14: [apply_mode] loads into the web views exactly the URLs that
    the windows it leaves behind hold, window by window and view by view, and
    each of them is [format_url] of the URL of a page of the controller: no
    view is given a raw URL or a URL from elsewhere. *)
Theorem apply_mode_loads_the_urls_shown (screens : list Screen) (c : MainController) :
  exists calls c1,
    apply_mode screens c = Some (calls, c1)
    /\ loaded_urls calls = flat_map window_urls (windows c1)
    /\ Forall (fun u => exists p, In p (pages c) /\ u = format_url (url p))
              (loaded_urls calls).
Proof.
  destruct (String.eqb (mode c) "single") eqn:Hm.
  - unfold apply_mode. cbn [set_windows mode pages refresh_interval]. rewrite Hm.
    unfold SingleScreenWindow.init, SingleScreenWindow.show_next_page,
      SingleScreenWindow.fresh.
    cbn [SingleScreenWindow.pages SingleScreenWindow.current_index
         SingleScreenWindow.refresh_interval].
    destruct (pages c) as [|p ps] eqn:Ep; cbn [is_empty nth_error bind ret].
    + do 2 eexists. split; [reflexivity|]. split; [reflexivity | constructor].
    + do 2 eexists. split; [reflexivity|]. split; [reflexivity|].
      cbn. constructor; [|constructor]. exists p. split; [now left | reflexivity].
  - rewrite (apply_mode_multi screens c Hm).
    destruct (0 <? slots_per_screen c)%Z.
    + do 2 eexists. split; [reflexivity|]. cbn [set_windows windows].
      split; [apply allocate_urls|].
      rewrite allocate_urls. apply Forall_forall. intros u Hu.
      apply in_flat_map in Hu. destruct Hu as (w & Hw & Hu).
      apply in_map_iff in Hw. destruct Hw as (cw & <- & Hcw).
      cbn [window_urls] in Hu.
      assert (E : exists b, snd cw = snd (built b (refresh_interval c)
                                            (MultiScreenWindow.x (snd cw))
                                            (MultiScreenWindow.y (snd cw))
                                            (MultiScreenWindow.width (snd cw))
                                            (MultiScreenWindow.height (snd cw))
                                            (slots_per_screen c))
                             /\ b = MultiScreenWindow.pages (snd cw)).
      { clear Hu. revert Hcw. generalize (pages c).
        induction screens as [|s screens IH]; intros rest Hcw; [destruct Hcw|].
        destruct Hcw as [<-|Hcw]; [|exact (IH _ Hcw)].
        exists (firstn (Z.to_nat (slots_per_screen c)) rest).
        unfold window_for. rewrite built_pages. split; [|reflexivity].
        unfold built. now destruct (get_grid_for_slots _). }
      destruct E as (b & E & Hb). rewrite E, built_views, map_map in Hu.
      apply in_map_iff in Hu. destruct Hu as (p & <- & Hp).
      exists p. split; [|reflexivity].
      apply (allocate_in_pages _ _ _ _ _ cw p Hcw).
      rewrite <- Hb. exact (in_firstn _ _ _ Hp).
    + do 2 eexists. split; [reflexivity|]. split; [reflexivity | constructor].
Qed.

Lemma get_grid_capacity (slots : Z) :
  (1 <= slots <= 16)%Z ->
  Z.to_nat slots
  <= fst (get_grid_for_slots slots) * snd (get_grid_for_slots slots).
Proof.
  intros H. unfold get_grid_for_slots.
  repeat match goal with
         | |- context [(?a <=? ?b)%Z] => destruct (Z.leb_spec a b)
         | |- context [(?a =? ?b)%Z] => destruct (Z.eqb_spec a b)
         end; cbn [fst snd Nat.mul Nat.add]; lia.
Qed.

Lemma titles_padded {A B} (f : A -> B) (l : list A) : forall k,
  map (fun i => option_map f (nth_error l i)) (seq 0 (List.length l + k))
  = map (fun p => Some (f p)) l ++ repeat None k.
Proof.
  induction l as [|x l IH]; intros k.
  - cbn [List.length plus map app]. generalize 0.
    induction k as [|k IHk]; intros a; [reflexivity|].
    cbn [seq map repeat]. rewrite IHk. now destruct a.
  - cbn [List.length plus seq map app nth_error option_map].
    f_equal. rewrite <- seq_shift, map_map. apply IH.
Qed.

Lemma allocate_urls_within (interval slots : Z) (n : nat) (screens : list Screen) :
  n <= fst (get_grid_for_slots slots) * snd (get_grid_for_slots slots) ->
  forall rest,
    flat_map window_urls
      (map (fun cw => MultiW (snd cw)) (allocate interval slots n rest screens))
    = map (fun p => format_url (url p)) (firstn (List.length screens * n) rest).
Proof.
  intros Hn. induction screens as [|s screens IH]; intros rest; [reflexivity|].
  cbn [allocate map flat_map List.length]. rewrite IH.
  unfold window_for. cbn [window_urls].
  rewrite built_views, firstn_firstn, Nat.min_r, map_map by exact Hn.
  replace (S (List.length screens) * n) with (n + List.length screens * n) by lia.
  rewrite firstn_add, map_app. reflexivity.
Qed.

(** X15: in multi mode with 1 to 16 slots per screen no page within
    reach of the screens is lost: the views of the windows, in the order of
    the screens and of the cells, show the first [screens * slots] pages of
    the controller, each once, so what is shown counts
    [min(len(pages), screens * slots)] pages; every window shows all the
    pages it took, in its first cells, and no-signal widgets in the rest. *)
Theorem multi_mode_within_capacity_shows_every_page
    (screens : list Screen) (c : MainController) :
  mode c <> "single" ->
  (1 <= slots_per_screen c <= 16)%Z ->
  let n := Z.to_nat (slots_per_screen c) in
  let cells := fst (get_grid_for_slots (slots_per_screen c))
               * snd (get_grid_for_slots (slots_per_screen c)) in
  exists calls c1,
    apply_mode screens c = Some (calls, c1)
    /\ flat_map window_urls (windows c1)
       = map (fun p => format_url (url p))
             (firstn (List.length screens * n) (pages c))
    /\ List.length (flat_map window_urls (windows c1))
       = Nat.min (List.length (pages c)) (List.length screens * n)
    /\ (forall i w,
          nth_error (windows c1) i = Some (MultiW w) ->
          MultiScreenWindow.pages w = firstn n (skipn (i * n) (pages c))
          /\ MultiScreenWindow.views w = map view_of (MultiScreenWindow.pages w)
          /\ MultiScreenWindow.cell_titles w
             = map (fun p => Some (title p)) (MultiScreenWindow.pages w)
               ++ repeat None (cells - List.length (MultiScreenWindow.pages w))).
Proof.
  intros Hm Hs n cells.
  pose proof (get_grid_capacity _ Hs) as Hcap. fold n cells in Hcap.
  destruct (apply_mode_multi_window screens c Hm ltac:(lia))
    as (calls & c1 & E & Hlen & Hnth).
  exists calls, c1. split; [exact E|].
  assert (Hw : windows c1
               = map (fun cw => MultiW (snd cw))
                     (allocate (refresh_interval c) (slots_per_screen c) n
                               (pages c) screens)).
  { rewrite (apply_mode_multi screens c (mode_not_single c Hm)) in E.
    replace (0 <? slots_per_screen c)%Z with true in E
      by (symmetry; apply Z.ltb_lt; lia).
    inversion E. reflexivity. }
  assert (Hu : flat_map window_urls (windows c1)
               = map (fun p => format_url (url p))
                     (firstn (List.length screens * n) (pages c))).
  { rewrite Hw. apply allocate_urls_within. exact Hcap. }
  split; [exact Hu|]. split.
  { rewrite Hu, length_map, length_firstn. lia. }
  intros i w Hi.
  assert (Hlt : i < List.length screens).
  { rewrite <- Hlen. apply nth_error_Some. congruence. }
  destruct (nth_error screens i) as [screen|] eqn:Es;
    [|apply nth_error_None in Es; lia].
  rewrite (Hnth i screen Es) in Hi. inversion Hi; subst w.
  unfold window_for. rewrite built_pages, built_views, built_cell_titles.
  fold n cells.
  assert (Hb : List.length (firstn n (skipn (i * n) (pages c))) <= cells)
    by (rewrite length_firstn; lia).
  split; [reflexivity|]. split.
  - now rewrite firstn_all2.
  - replace cells
      with (List.length (firstn n (skipn (i * n) (pages c)))
            + (cells - List.length (firstn n (skipn (i * n) (pages c)))))
      at 1 by lia.
    apply titles_padded.
Qed.

Lemma multi_mode_within_capacity_shows_every_page_witness :
  "multi" <> "single" /\ (1 <= 2 <= 16)%Z
  /\ exists calls c1,
      apply_mode [mkScreen 0 0 1920 1080]
        (mkController "multi"
           [mkPage "A" "a.example"; mkPage "B" "http://b.example";
            mkPage "C" "c.example"] 5000 2 [])
      = Some (calls, c1)
      /\ flat_map window_urls (windows c1)
         = ["https://a.example"; "http://b.example"].
Proof.
  split; [discriminate|]. split; [lia|].
  destruct (multi_mode_within_capacity_shows_every_page
              [mkScreen 0 0 1920 1080]
              (mkController "multi"
                 [mkPage "A" "a.example"; mkPage "B" "http://b.example";
                  mkPage "C" "c.example"] 5000 2 [])
              ltac:(discriminate) ltac:(cbn; lia))
    as (calls & c1 & E & Hu & _).
  exists calls, c1. split; [exact E | exact Hu].
Defined.

(** X16: in multi mode no window at all is built, and no call is made,
    when there is no screen or when [slots_per_screen] is zero or negative
    (a value a configuration file can hold): the pages are then shown
    nowhere, and no error is raised. *)
Theorem multi_mode_without_screens_or_slots
    (screens : list Screen) (c : MainController) :
  mode c <> "single" ->
  screens = [] \/ (slots_per_screen c <= 0)%Z ->
  apply_mode screens c = Some ([], set_windows c []).
Proof.
  intros Hm H. rewrite (apply_mode_multi screens c (mode_not_single c Hm)).
  destruct (Z.ltb_spec 0 (slots_per_screen c)) as [Hpos|Hle]; [|reflexivity].
  destruct H as [->|H]; [reflexivity | lia].
Qed.

Lemma multi_mode_without_screens_or_slots_witness :
  "multi" <> "single"
  /\ ([mkScreen 0 0 1920 1080] = [] \/ (0 <= 0)%Z)
  /\ apply_mode [mkScreen 0 0 1920 1080]
       (mkController "multi" [mkPage "A" "a.example"] 5000 0 [])
     = Some ([], mkController "multi" [mkPage "A" "a.example"] 5000 0 []).
Proof.
  split; [discriminate|]. split; [right; lia|].
  apply (multi_mode_without_screens_or_slots [mkScreen 0 0 1920 1080]
           (mkController "multi" [mkPage "A" "a.example"] 5000 0 [])).
  - discriminate.
  - right. cbn. lia.
Defined.

(** X17: in single mode [apply_mode] builds exactly one window, over
    all the pages and with the controller's refresh interval, and neither the
    screens nor [slots_per_screen] have any part in it: with other screens
    and another slot count the same calls are made and the same window is
    built. *)
Theorem single_mode_ignores_screens_and_slots
    (screens screens' : list Screen) (c : MainController) (slots' : Z) :
  mode c = "single" ->
  exists calls w,
    apply_mode screens c = Some (calls, set_windows c [SingleW w])
    /\ apply_mode screens' (set_slots_per_screen c slots')
       = Some (calls, set_windows (set_slots_per_screen c slots') [SingleW w])
    /\ SingleScreenWindow.pages w = pages c
    /\ SingleScreenWindow.refresh_interval w = refresh_interval c.
Proof.
  intros Hm. unfold apply_mode.
  cbn [set_windows set_slots_per_screen mode pages refresh_interval].
  rewrite Hm. change (String.eqb "single" "single") with true. cbv iota.
  unfold SingleScreenWindow.init, SingleScreenWindow.show_next_page,
    SingleScreenWindow.fresh.
  cbn [SingleScreenWindow.pages SingleScreenWindow.current_index
       SingleScreenWindow.refresh_interval].
  destruct (pages c) as [|p ps] eqn:Ep; cbn [is_empty nth_error bind ret];
    do 2 eexists; (split; [reflexivity|]); (split; [reflexivity|]);
    cbn [SingleScreenWindow.pages SingleScreenWindow.refresh_interval];
    split; reflexivity.
Qed.

Lemma single_mode_ignores_screens_and_slots_witness :
  "single" = "single"
  /\ exists calls w,
      apply_mode [] (mkController "single" [mkPage "A" "a.example"] 5000 1 [])
      = Some (calls, mkController "single" [mkPage "A" "a.example"] 5000 1 [SingleW w])
      /\ apply_mode [mkScreen 0 0 1 1]
           (mkController "single" [mkPage "A" "a.example"] 5000 9 [])
         = Some (calls, mkController "single" [mkPage "A" "a.example"] 5000 9 [SingleW w]).
Proof.
  split; [reflexivity|].
  destruct (single_mode_ignores_screens_and_slots [] [mkScreen 0 0 1 1]
              (mkController "single" [mkPage "A" "a.example"] 5000 1 []) 9 eq_refl)
    as (calls & w & E1 & E2 & _).
  exists calls, w. split; [exact E1 | exact E2].
Defined.

End Shown.

(** ** A full turn of the single-screen window *)

Section Cycle.

Lemma run_ticks_segment (k : nat) : forall w,
  index_in_bounds w ->
  SingleScreenWindow.current_index w + k <= List.length (SingleScreenWindow.pages w) ->
  exists w',
    run_ticks k w
    = Some (map render_calls
              (firstn k (skipn (SingleScreenWindow.current_index w)
                               (SingleScreenWindow.pages w))), w')
    /\ SingleScreenWindow.pages w' = SingleScreenWindow.pages w
    /\ SingleScreenWindow.refresh_interval w' = SingleScreenWindow.refresh_interval w
    /\ SingleScreenWindow.current_index w'
       = (SingleScreenWindow.current_index w + k)
         mod List.length (SingleScreenWindow.pages w).
Proof.
  induction k as [|k IH]; intros w Hlt Hk.
  - exists w. cbn [run_ticks firstn map ret]. repeat split.
    rewrite Nat.add_0_r. symmetry. now apply Nat.mod_small.
  - destruct (show_next_page_render w Hlt) as (page & Hnth & Hshow).
    cbn [run_ticks]. rewrite Hshow. cbn [bind].
    rewrite (skipn_nth_error_cons _ _ _ Hnth). cbn [firstn map].
    set (w1 := SingleScreenWindow.mk _ _ _ _ _).
    destruct k as [|k].
    + exists w1. cbn [run_ticks firstn map ret bind]. repeat split.
    + assert (Hsmall : (SingleScreenWindow.current_index w + 1)
                       mod List.length (SingleScreenWindow.pages w)
                       = SingleScreenWindow.current_index w + 1)
        by (apply Nat.mod_small; lia).
      destruct (IH w1) as (w' & E & Hp & Hr & Hi).
      * unfold index_in_bounds, w1.
        cbn [SingleScreenWindow.current_index SingleScreenWindow.pages].
        rewrite Hsmall. lia.
      * unfold w1.
        cbn [SingleScreenWindow.current_index SingleScreenWindow.pages].
        rewrite Hsmall. lia.
      * exists w'. rewrite E. cbn [bind ret].
        unfold w1 in Hp, Hr, Hi |- *.
        cbn [SingleScreenWindow.current_index SingleScreenWindow.pages
             SingleScreenWindow.refresh_interval] in Hp, Hr, Hi |- *.
        rewrite Hsmall in Hi |- *.
        replace (SingleScreenWindow.current_index w + 1)
          with (S (SingleScreenWindow.current_index w)) by lia.
        split; [reflexivity|]. split; [exact Hp|]. split; [exact Hr|].
        rewrite Hi. f_equal. lia.
Qed.

(** X18: a single-screen window over [n > 0] pages whose index is 0, as
    it is when [__init__] makes its own first call, shows every page exactly
    once, in the order of the list, in its next [n] ticks (title label first,
    then the formatted URL) without ever raising, and is then back at index 0
    with the same pages and interval: the rotation starts over and no page is
    ever skipped or shown twice in a turn. *)
Theorem single_mode_full_turn (w : SingleScreenWindow.t) :
  SingleScreenWindow.pages w <> [] ->
  SingleScreenWindow.current_index w = 0 ->
  exists w',
    run_ticks (List.length (SingleScreenWindow.pages w)) w
    = Some (map render_calls (SingleScreenWindow.pages w), w')
    /\ SingleScreenWindow.pages w' = SingleScreenWindow.pages w
    /\ SingleScreenWindow.refresh_interval w' = SingleScreenWindow.refresh_interval w
    /\ SingleScreenWindow.current_index w' = 0.
Proof.
  intros Hne Hi.
  assert (Hn : 0 < List.length (SingleScreenWindow.pages w))
    by (destruct (SingleScreenWindow.pages w); [congruence | cbn; lia]).
  destruct (run_ticks_segment (List.length (SingleScreenWindow.pages w)) w)
    as (w' & E & Hp & Hr & Hi').
  - unfold index_in_bounds. lia.
  - lia.
  - exists w'. rewrite Hi in E, Hi'. cbn [skipn] in E.
    rewrite firstn_all in E. split; [exact E|].
    split; [exact Hp|]. split; [exact Hr|].
    rewrite Hi'. cbn [plus]. apply Nat.Div0.mod_same.
Qed.

Lemma single_mode_full_turn_witness :
  [mkPage "A" "a.example"; mkPage "B" "b.example"] <> []
  /\ 0 = 0
  /\ exists w',
      run_ticks 2 (SingleScreenWindow.fresh
                     [mkPage "A" "a.example"; mkPage "B" "b.example"] 5000)
      = Some ([[LabelSetText "A"; ViewSetUrl 0 "https://a.example"];
               [LabelSetText "B"; ViewSetUrl 0 "https://b.example"]], w')
      /\ SingleScreenWindow.current_index w' = 0.
Proof.
  split; [discriminate|]. split; [reflexivity|].
  destruct (single_mode_full_turn
              (SingleScreenWindow.fresh
                 [mkPage "A" "a.example"; mkPage "B" "b.example"] 5000)
              ltac:(discriminate) eq_refl)
    as (w' & E & _ & _ & Hi).
  exists w'. split; [exact E | exact Hi].
Defined.

End Cycle.

(** ** The configuration file *)

Section ConfigFileProps.

Lemma pages_of_json_page_json (ps : list Page) :
  pages_of_json (map page_json ps) = Some ps.
Proof.
  induction ps as [|[t u] ps IH]; [reflexivity|].
  cbn [map pages_of_json]. rewrite IH. reflexivity.
Qed.

(** X19: what [save_config] writes, [load_config] reads back: from a
    file holding the dict that [save_config] dumps for settings [cfg],
    [load_config] returns exactly those pages, refresh interval, mode and
    slots, none replaced by a default, and a controller made from them by
    [MainController.__init__] has the settings of the controller that saved
    them and no window yet. *)
Theorem load_config_after_save_config (cfg : ConfigData) (ctl : MainController) :
  load_config (Parsed (save_config_data cfg))
  = mkLoaded (JList (map page_json (cfg_pages cfg)))
             (JInt (cfg_refresh_interval cfg))
             (JStr (cfg_mode cfg))
             (JInt (cfg_slots_per_screen cfg))
  /\ typed_config (load_config (Parsed (save_config_data cfg))) = Some cfg
  /\ option_map MainController_init
       (typed_config
          (load_config
             (Parsed (save_config_data
                        (mkConfig (pages ctl) (refresh_interval ctl)
                                  (mode ctl) (slots_per_screen ctl))))))
     = Some (set_windows ctl []).
Proof.
  assert (H : forall cfg', typed_config (load_config (Parsed (save_config_data cfg')))
                           = Some cfg').
  { intros [ps interval m slots]. unfold typed_config. cbn.
    now rewrite pages_of_json_page_json. }
  split; [reflexivity|]. split; [apply H|].
  rewrite H. reflexivity.
Qed.

(** X20: [load_config] never fails.  Without a file, with a file that
    cannot be read or parsed, or with a file whose content is not a JSON
    object, it returns the default configuration (three example pages, 5000
    ms, single mode, one slot).  From a JSON object it takes each of the four
    keys on its own: a key that is present gives its value as it is, with no
    check of type or range, and a key that is absent gives its default,
    whatever the other keys do. *)
Theorem load_config_defaults (fields : list (string * Json)) :
  load_config NoFile = default_config
  /\ load_config Unreadable = default_config
  /\ (forall data,
        (forall fs, data <> JDict fs) -> load_config (Parsed data) = default_config)
  /\ load_config (Parsed (JDict [])) = default_config
  /\ (forall key default,
        In (key, default)
           [("pages", lc_pages default_config);
            ("refresh_interval", lc_refresh_interval default_config);
            ("mode", lc_mode default_config);
            ("slots_per_screen", lc_slots_per_screen default_config)] ->
        forall project,
          In (key, project)
             [("pages", lc_pages); ("refresh_interval", lc_refresh_interval);
              ("mode", lc_mode); ("slots_per_screen", lc_slots_per_screen)] ->
          project (load_config (Parsed (JDict fields)))
          = match assoc_get key fields with
            | Some v => v
            | None => default
            end).
Proof.
  split; [reflexivity|]. split; [reflexivity|]. split; [|split; [reflexivity|]].
  - intros data Hd. destruct data; try reflexivity. now destruct (Hd fields0).
  - intros key default Hk project Hp. cbn in Hk, Hp.
    repeat match goal with
           | H : _ \/ _ |- _ => destruct H as [H|H]
           | H : False |- _ => destruct H
           | H : (_, _) = (_, _) |- _ => inversion H; clear H; subst
           end; try discriminate; reflexivity.
Qed.

End ConfigFileProps.

(* ================================================================= *)
(** * Properties of the first revision, [main.py] *)

Section FirstRevision.

Lemma every_nth_nth {A} (step : nat) (l : list A) :
  1 <= step ->
  forall c k, nth_error (V1.every_nth step c l) k = nth_error l (c + k * step).
Proof.
  intros Hs. induction l as [|a l IH]; intros c k.
  - cbn [V1.every_nth]. destruct k; destruct (c + _ * step); reflexivity.
  - destruct c as [|c]; cbn [V1.every_nth].
    + destruct k as [|k]; [reflexivity|].
      cbn [nth_error]. rewrite IH.
      replace (0 + S k * step) with (S (step - 1 + k * step)) by lia.
      reflexivity.
    + rewrite IH. reflexivity.
Qed.

Lemma every_nth_is_empty {A} (step i : nat) (l : list A) :
  1 <= step ->
  is_empty (V1.every_nth step i l) = negb (i <? List.length l).
Proof.
  intros Hs. pose proof (every_nth_nth step l Hs i 0) as H.
  rewrite Nat.mul_0_l, Nat.add_0_r in H.
  destruct (Nat.ltb_spec i (List.length l)) as [Hlt|Hge].
  - destruct (V1.every_nth step i l); [|reflexivity].
    cbn in H. symmetry in H. apply nth_error_None in H. lia.
  - destruct (V1.every_nth step i l) as [|a r]; [reflexivity|].
    cbn in H. symmetry in H.
    rewrite (proj2 (nth_error_None l i) Hge) in H. discriminate.
Qed.

Lemma v1_foldM_place (self : V1.MainController) (count : nat) :
  1 <= count ->
  forall l calls wins,
    foldM (V1.place_monitor self count) l (calls, wins)
    = Some (calls ++ flat_map (v1_calls_for self) l,
            wins ++ flat_map (v1_windows_for self count) l).
Proof.
  intros Hc. induction l as [|[i mon] l IH]; intros calls wins.
  - cbn. now rewrite !app_nil_r.
  - cbn [foldM]. unfold V1.place_monitor at 1.
    rewrite every_nth_is_empty by exact Hc. rewrite negb_involutive.
    cbn [flat_map]. unfold v1_calls_for at 1, v1_windows_for at 1. cbn [fst snd].
    destruct (Nat.ltb_spec i (List.length (V1.ctl_urls self))) as [Hlt|Hge].
    + unfold V1.RefreshableWindow_init.
      pose proof (every_nth_nth count (V1.ctl_urls self) Hc i 0) as H0.
      rewrite Nat.mul_0_l, Nat.add_0_r in H0. rewrite H0.
      destruct (nth_error (V1.ctl_urls self) i) as [u|] eqn:E;
        [|apply nth_error_None in E; lia].
      cbn [bind ret]. rewrite IH, <- !app_assoc.
      unfold V1.window_of. rewrite E. reflexivity.
    + cbn [bind ret]. rewrite IH.
      rewrite (proj2 (nth_error_None _ _) Hge). reflexivity.
Qed.

(** The windows of the monitors numbered from [a] on. *)
Lemma v1_windows_enumerated (self : V1.MainController) (count : nat) :
  forall mons a,
    let wins := flat_map (v1_windows_for self count)
                         (combine (seq a (List.length mons)) mons) in
    List.length wins
    = Nat.min (List.length mons) (List.length (V1.ctl_urls self) - a)
    /\ forall j mon,
        nth_error mons j = Some mon ->
        a + j < List.length (V1.ctl_urls self) ->
        nth_error wins j = Some (V1.window_of self count (a + j) mon).
Proof.
  induction mons as [|m mons IH]; intros a wins.
  - split; [reflexivity|]. intros j mon H. now destruct j.
  - subst wins. cbn [List.length seq combine flat_map].
    destruct (IH (S a)) as (Hlen & Hnth).
    unfold v1_windows_for at 1 3. cbn [fst snd].
    destruct (Nat.ltb_spec a (List.length (V1.ctl_urls self))) as [Hlt|Hge].
    + cbn [app List.length]. split; [rewrite Hlen; lia|].
      intros [|j] mon Hj Hb; cbn in Hj.
      * inversion Hj; subst. rewrite Nat.add_0_r. reflexivity.
      * cbn [nth_error]. rewrite (Hnth j mon Hj) by lia.
        replace (S a + j) with (a + S j) by lia. reflexivity.
    + cbn [app]. split; [rewrite Hlen; lia|].
      intros j mon _ Hb. lia.
Qed.

Lemma v1_calls_enumerated (self : V1.MainController) :
  forall mons a,
    loaded_urls (flat_map (v1_calls_for self)
                          (combine (seq a (List.length mons)) mons))
    = map format_url (firstn (List.length mons) (skipn a (V1.ctl_urls self))).
Proof.
  induction mons as [|m mons IH]; intros a; [reflexivity|].
  cbn [List.length seq combine flat_map]. rewrite loaded_urls_app, IH.
  unfold v1_calls_for. cbn [fst].
  destruct (nth_error (V1.ctl_urls self) a) as [u|] eqn:E.
  - rewrite (skipn_nth_error_cons _ _ _ E). reflexivity.
  - apply nth_error_None in E.
    rewrite (skipn_all2 (V1.ctl_urls self)) by lia.
    rewrite (skipn_all2 (V1.ctl_urls self)) by lia.
    now rewrite !firstn_nil.
Qed.

Lemma v1_apply_mode_multi (monitors : list V1.Monitor) (self : V1.MainController) :
  V1.mode self = "multi" ->
  V1.apply_mode monitors self
  = Some (flat_map (v1_calls_for self)
            (combine (seq 0 (List.length monitors)) monitors),
          V1.mkController (V1.mode self) (V1.ctl_urls self)
            (V1.ctl_refresh_interval self)
            (flat_map (v1_windows_for self (List.length monitors))
               (combine (seq 0 (List.length monitors)) monitors))).
Proof.
  intros Hm. unfold V1.apply_mode, V1.create_multi_windows. rewrite Hm.
  change (String.eqb "multi" "single") with false.
  change (String.eqb "multi" "multi") with true. cbv iota.
  destruct monitors as [|m monitors]; [reflexivity|].
  rewrite v1_foldM_place by (cbn; lia). reflexivity.
Qed.

(** X21: in the multi mode of [main.py] the pages are dealt out to the
    monitors in turn, not in blocks: with [m] monitors, monitor [i] gets the
    URLs of index [i], [i + m], [i + 2m], ...  A monitor gets a window only
    if that list is not empty, so there are [min(m, len(urls))] windows, the
    window of monitor [i] sitting on its geometry; and every URL of the
    controller is in the list of exactly the window [j mod m], at place
    [j div m]: no URL is left out of the windows' lists, and building the
    windows never raises. *)
Theorem v1_multi_mode_deals_urls_in_turn
    (monitors : list V1.Monitor) (self : V1.MainController) :
  V1.mode self = "multi" ->
  let m := List.length monitors in
  exists calls self',
    V1.apply_mode monitors self = Some (calls, self')
    /\ (V1.mode self', V1.ctl_urls self', V1.ctl_refresh_interval self')
       = (V1.mode self, V1.ctl_urls self, V1.ctl_refresh_interval self)
    /\ List.length (V1.windows self')
       = Nat.min m (List.length (V1.ctl_urls self))
    /\ (forall i monitor,
          nth_error monitors i = Some monitor ->
          i < List.length (V1.ctl_urls self) ->
          exists w,
            nth_error (V1.windows self') i = Some w
            /\ V1.geometry w
               = (V1.mon_x monitor, V1.mon_y monitor,
                  V1.mon_width monitor, V1.mon_height monitor)
            /\ forall k, nth_error (V1.urls w) k
                         = nth_error (V1.ctl_urls self) (i + k * m))
    /\ (forall j u,
          nth_error (V1.ctl_urls self) j = Some u ->
          0 < m ->
          exists w,
            nth_error (V1.windows self') (j mod m) = Some w
            /\ nth_error (V1.urls w) (j / m) = Some u).
Proof.
  intros Hm m. rewrite (v1_apply_mode_multi monitors self Hm).
  do 2 eexists. split; [reflexivity|]. split; [reflexivity|].
  cbn [V1.windows].
  destruct (v1_windows_enumerated self m monitors 0) as (Hlen & Hnth).
  fold m in Hlen, Hnth. cbv zeta in Hlen, Hnth. rewrite Nat.sub_0_r in Hlen.
  split; [exact Hlen|].
  assert (Hwin : forall i monitor,
            nth_error monitors i = Some monitor ->
            i < List.length (V1.ctl_urls self) ->
            nth_error (flat_map (v1_windows_for self m)
                         (combine (seq 0 m) monitors)) i
            = Some (V1.window_of self m i monitor)).
  { intros i monitor Hi Hlt. exact (Hnth i monitor Hi Hlt). }
  split.
  - intros i monitor Hi Hlt. eexists. split; [exact (Hwin i monitor Hi Hlt)|].
    split; [reflexivity|]. intros k. cbn [V1.window_of V1.urls].
    apply every_nth_nth.
    assert (i < m) by (apply nth_error_Some; congruence). lia.
  - intros j u Hj Hpos.
    assert (Hjl : j < List.length (V1.ctl_urls self))
      by (apply nth_error_Some; congruence).
    assert (Hmod : j mod m < m) by (apply Nat.mod_upper_bound; lia).
    destruct (nth_error monitors (j mod m)) as [monitor|] eqn:Em;
      [|apply nth_error_None in Em; lia].
    assert (Hle : j mod m <= j) by (apply Nat.Div0.mod_le).
    eexists. split; [apply (Hwin _ monitor Em); lia|].
    cbn [V1.window_of V1.urls]. rewrite every_nth_nth by lia.
    rewrite <- Hj. f_equal.
    rewrite (Nat.div_mod_eq j m) at 3. lia.
Qed.

Lemma v1_multi_mode_deals_urls_in_turn_witness :
  "multi" = "multi"
  /\ exists calls self',
      V1.apply_mode [V1.mkMonitor 0 0 1920 1080; V1.mkMonitor 1920 0 1920 1080]
        (V1.mkController "multi" ["a"; "b"; "c"; "d"; "e"] 5000 [])
      = Some (calls, self')
      /\ map V1.urls (V1.windows self') = [["a"; "c"; "e"]; ["b"; "d"]].
Proof.
  split; [reflexivity|].
  destruct (v1_multi_mode_deals_urls_in_turn
              [V1.mkMonitor 0 0 1920 1080; V1.mkMonitor 1920 0 1920 1080]
              (V1.mkController "multi" ["a"; "b"; "c"; "d"; "e"] 5000 [])
              eq_refl)
    as (calls & self' & E & _).
  exists calls, self'. split; [exact E|].
  cbv in E. inversion E. reflexivity.
Defined.

Lemma v1_widgets_enumerated (self : V1.MainController) (count : nat) :
  forall mons a,
    map V1.widget_url
      (flat_map (v1_windows_for self count)
         (combine (seq a (List.length mons)) mons))
    = map (fun u => Some (format_url u))
          (firstn (List.length mons) (skipn a (V1.ctl_urls self))).
Proof.
  induction mons as [|m mons IH]; intros a; [reflexivity|].
  cbn [List.length seq combine flat_map]. rewrite map_app, IH.
  unfold v1_windows_for. cbn [fst snd].
  destruct (Nat.ltb_spec a (List.length (V1.ctl_urls self))) as [Hlt|Hge].
  - destruct (nth_error (V1.ctl_urls self) a) as [u|] eqn:E;
      [|apply nth_error_None in E; lia].
    rewrite (skipn_nth_error_cons _ _ _ E).
    cbn [map app firstn V1.window_of V1.widget_url]. now rewrite E.
  - rewrite (skipn_all2 (V1.ctl_urls self)) by lia.
    rewrite (skipn_all2 (V1.ctl_urls self)) by lia.
    now rewrite !firstn_nil.
Qed.

Lemma v1_windows_inert (self : V1.MainController) (count : nat)
    (l : list (nat * V1.Monitor)) :
  Forall (fun w => V1.timer_started w = false
                   /\ V1.single_mode w = false
                   /\ V1.refresh_content w = Some ([], w))
         (flat_map (v1_windows_for self count) l).
Proof.
  apply Forall_flat_map, Forall_forall. intros [i mon] _.
  unfold v1_windows_for. cbn [fst snd].
  destruct (i <? List.length (V1.ctl_urls self)); constructor; [|constructor].
  repeat split.
Qed.

(** X22: in the multi mode of [main.py] a window shows one URL for
    good: building the windows loads the first [min(m, len(urls))] URLs of
    the controller, formatted, one per monitor in order; the timer of such a
    window is never started, and its handler [refresh_content] does nothing;
    so the URLs from index [m] on, though held by the windows, are never
    loaded. *)
Theorem v1_multi_mode_shows_first_urls_only
    (monitors : list V1.Monitor) (self : V1.MainController) :
  V1.mode self = "multi" ->
  exists calls self',
    V1.apply_mode monitors self = Some (calls, self')
    /\ loaded_urls calls
       = map format_url (firstn (List.length monitors) (V1.ctl_urls self))
    /\ map V1.widget_url (V1.windows self')
       = map (fun u => Some (format_url u))
             (firstn (List.length monitors) (V1.ctl_urls self))
    /\ Forall (fun w => V1.timer_started w = false
                        /\ V1.single_mode w = false
                        /\ V1.refresh_content w = Some ([], w))
              (V1.windows self').
Proof.
  intros Hm. rewrite (v1_apply_mode_multi monitors self Hm).
  do 2 eexists. split; [reflexivity|]. cbn [V1.windows].
  split; [apply (v1_calls_enumerated self monitors 0)|].
  split; [apply (v1_widgets_enumerated self (List.length monitors) monitors 0)|].
  apply v1_windows_inert.
Qed.

Lemma v1_multi_mode_shows_first_urls_only_witness :
  "multi" = "multi"
  /\ exists calls self',
      V1.apply_mode [V1.mkMonitor 0 0 1920 1080; V1.mkMonitor 1920 0 1920 1080]
        (V1.mkController "multi" ["a.example"; "http://b.example"; "c.example"]
                         5000 [])
      = Some (calls, self')
      /\ loaded_urls calls = ["https://a.example"; "http://b.example"].
Proof.
  split; [reflexivity|].
  destruct (v1_multi_mode_shows_first_urls_only
              [V1.mkMonitor 0 0 1920 1080; V1.mkMonitor 1920 0 1920 1080]
              (V1.mkController "multi"
                 ["a.example"; "http://b.example"; "c.example"] 5000 [])
              eq_refl)
    as (calls & self' & E & Hu & _).
  exists calls, self'. split; [exact E | exact Hu].
Defined.

(** X23: in the single mode of [main.py] nothing guards an empty URL
    list: [apply_mode] then raises [IndexError] out of the window's
    constructor (where [main_final.py] builds a window that shows nothing).
    With at least one URL it builds one window on the default geometry, with
    its timer started, showing the first URL formatted and with the index
    moved on to [1 mod len(urls)]. *)
Theorem v1_single_mode_needs_a_url
    (monitors : list V1.Monitor) (self : V1.MainController) :
  V1.mode self = "single" ->
  (V1.ctl_urls self = [] -> V1.apply_mode monitors self = None)
  /\ (forall u rest,
        V1.ctl_urls self = u :: rest ->
        V1.apply_mode monitors self
        = Some ([ViewSetUrl 0 (format_url u)],
                V1.mkController "single" (u :: rest) (V1.ctl_refresh_interval self)
                  [V1.mkWindow (u :: rest) (V1.ctl_refresh_interval self) true
                               (1 mod S (List.length rest))
                               (100, 100, 800, 600)%Z
                               (Some (format_url u)) true])).
Proof.
  intros Hm. unfold V1.apply_mode. rewrite Hm.
  change (String.eqb "single" "single") with true. cbv iota.
  split.
  - intros ->. reflexivity.
  - intros u rest ->. reflexivity.
Qed.

Lemma v1_single_mode_needs_a_url_witness :
  "single" = "single"
  /\ V1.apply_mode [] (V1.mkController "single" [] 5000 []) = None.
Proof.
  split; [reflexivity|].
  apply (proj1 (v1_single_mode_needs_a_url []
                  (V1.mkController "single" [] 5000 []) eq_refl)).
  reflexivity.
Defined.

(** X24: the mode is never checked against a list of known modes.  In
    [main.py] a mode that is neither ["single"] nor ["multi"] (any other
    string of the configuration file) leaves the controller without any
    window and makes no call; in [main_final.py] every mode other than
    ["single"] is multi mode: the calls and the windows are those of mode
    ["multi"]. *)
Theorem unknown_mode_is_multi_only_in_final
    (monitors : list V1.Monitor) (self : V1.MainController)
    (screens : list Screen) (c : MainController) :
  V1.mode self <> "single" -> V1.mode self <> "multi" ->
  mode c <> "single" -> mode c <> "multi" ->
  V1.apply_mode monitors self
  = Some ([], V1.mkController (V1.mode self) (V1.ctl_urls self)
                              (V1.ctl_refresh_interval self) [])
  /\ exists calls wins,
      apply_mode screens c = Some (calls, set_windows c wins)
      /\ apply_mode screens
           (mkController "multi" (pages c) (refresh_interval c)
                         (slots_per_screen c) (windows c))
         = Some (calls,
                 mkController "multi" (pages c) (refresh_interval c)
                              (slots_per_screen c) wins).
Proof.
  intros H1 H2 H3 _. split.
  - unfold V1.apply_mode.
    rewrite (proj2 (String.eqb_neq _ _) H1), (proj2 (String.eqb_neq _ _) H2).
    reflexivity.
  - rewrite (apply_mode_multi screens c (mode_not_single c H3)).
    rewrite (apply_mode_multi screens (mkController "multi" _ _ _ _) eq_refl).
    cbn [pages refresh_interval slots_per_screen set_windows mode].
    destruct (0 <? slots_per_screen c)%Z; do 2 eexists; split; reflexivity.
Qed.

Lemma unknown_mode_is_multi_only_in_final_witness :
  "Multi" <> "single" /\ "Multi" <> "multi"
  /\ V1.apply_mode [V1.mkMonitor 0 0 1920 1080]
       (V1.mkController "Multi" ["a.example"] 5000 [])
     = Some ([], V1.mkController "Multi" ["a.example"] 5000 [])
  /\ exists calls wins,
      apply_mode [mkScreen 0 0 1920 1080]
        (mkController "Multi" [mkPage "A" "a.example"] 5000 1 [])
      = Some (calls, mkController "Multi" [mkPage "A" "a.example"] 5000 1 wins)
      /\ List.length wins = 1.
Proof.
  split; [discriminate|]. split; [discriminate|].
  destruct (unknown_mode_is_multi_only_in_final [V1.mkMonitor 0 0 1920 1080]
              (V1.mkController "Multi" ["a.example"] 5000 [])
              [mkScreen 0 0 1920 1080]
              (mkController "Multi" [mkPage "A" "a.example"] 5000 1 []))
    as (E1 & calls & wins & E2 & _); try discriminate.
  split; [exact E1|]. exists calls, wins. split; [exact E2|].
  cbv in E2. inversion E2. reflexivity.
Defined.

End FirstRevision.

(* ================================================================= *)
(** * Properties of the second revision, [main_update.py] *)

Section SecondRevision.

Lemma v2_fill_block (n : nat) (urls : list string) :
  forall idx acc,
    V2.fill_window n urls idx acc
    = (acc ++ firstn n (skipn idx urls),
       idx + List.length (firstn n (skipn idx urls))).
Proof.
  induction n as [|n IH]; intros idx acc.
  - cbn. now rewrite app_nil_r, Nat.add_0_r.
  - cbn [V2.fill_window].
    destruct (Nat.ltb_spec idx (List.length urls)) as [Hlt|Hge].
    + destruct (nth_error urls idx) as [u|] eqn:E;
        [|apply nth_error_None in E; lia].
      rewrite IH, (skipn_nth_error_cons _ _ _ E).
      replace (idx + 1) with (S idx) by lia.
      cbn [firstn List.length]. rewrite <- app_assoc. cbn [app].
      f_equal. lia.
    + rewrite (skipn_all2 urls) by lia. rewrite firstn_nil.
      cbn. now rewrite app_nil_r, Nat.add_0_r.
Qed.

Lemma skipn_past_taken {A} (n idx : nat) (l : list A) :
  skipn (idx + List.length (firstn n (skipn idx l))) l = skipn n (skipn idx l).
Proof.
  rewrite length_firstn, length_skipn.
  destruct (Nat.le_gt_cases n (List.length l - idx)) as [H|H].
  - rewrite Nat.min_l by lia. rewrite skipn_skipn. f_equal. lia.
  - rewrite Nat.min_r by lia.
    rewrite (skipn_all2 l) by lia.
    rewrite (skipn_all2 (skipn idx l)) by (rewrite length_skipn; lia).
    reflexivity.
Qed.

Lemma v2_fold_place (self : V2.MainController) (monitors : list V1.Monitor) :
  forall idx calls wins,
    exists idx',
      fold_left (V2.place_monitor self) monitors (idx, calls, wins)
      = (idx',
         calls ++ flat_map fst
                    (v2_allocate (V2.ctl_refresh_interval self)
                       (V2.ctl_slots_per_screen self)
                       (Z.to_nat (V2.ctl_slots_per_screen self))
                       (skipn idx (V2.ctl_urls self)) monitors),
         wins ++ map (fun cw => V2.MultiW (snd cw))
                   (v2_allocate (V2.ctl_refresh_interval self)
                      (V2.ctl_slots_per_screen self)
                      (Z.to_nat (V2.ctl_slots_per_screen self))
                      (skipn idx (V2.ctl_urls self)) monitors)).
Proof.
  induction monitors as [|mon monitors IH]; intros idx calls wins.
  - exists idx. cbn. now rewrite !app_nil_r.
  - cbn [fold_left]. unfold V2.place_monitor at 2.
    rewrite v2_fill_block. cbn [app v2_allocate].
    destruct (is_empty (firstn (Z.to_nat (V2.ctl_slots_per_screen self))
                               (skipn idx (V2.ctl_urls self)))) eqn:Ee;
      cbn [negb].
    + destruct (IH (idx + List.length
                            (firstn (Z.to_nat (V2.ctl_slots_per_screen self))
                                    (skipn idx (V2.ctl_urls self))))
                   calls wins) as (idx' & E).
      exists idx'. rewrite E, skipn_past_taken. reflexivity.
    + destruct (V2.MultiScreenWindow_init _ _ _ _) as [c w] eqn:Ei.
      destruct (IH (idx + List.length
                            (firstn (Z.to_nat (V2.ctl_slots_per_screen self))
                                    (skipn idx (V2.ctl_urls self))))
                   (calls ++ c) (wins ++ [V2.MultiW w])) as (idx' & E).
      exists idx'. rewrite E, skipn_past_taken.
      cbn [app flat_map map fst snd]. rewrite <- !app_assoc. reflexivity.
Qed.

Lemma v2_add_views (l : list string) : forall i,
  loaded_urls (fst (V2.add_views i l)) = map format_url l
  /\ snd (V2.add_views i l) = map format_url l.
Proof.
  induction l as [|u l IH]; intros i; [split; reflexivity|].
  cbn [V2.add_views]. destruct (IH (S i)) as (H1 & H2).
  destruct (V2.add_views (S i) l) as [calls views]. cbn [fst snd] in *.
  unfold loaded_urls in *. cbn [flat_map map app].
  rewrite H1, H2. split; reflexivity.
Qed.

Lemma v2_init_window (l : list string) (interval slots : Z) (mon : V1.Monitor) :
  let cw := V2.MultiScreenWindow_init l interval mon slots in
  loaded_urls (fst cw) = map format_url l
  /\ V2.views (snd cw) = map format_url l
  /\ V2.window_urls (snd cw) = l
  /\ V2.geometry (snd cw)
     = (V1.mon_x mon, V1.mon_y mon, V1.mon_width mon, V1.mon_height mon).
Proof.
  unfold V2.MultiScreenWindow_init.
  destruct (v2_add_views l 0) as (H1 & H2).
  destruct (V2.add_views 0 l) as [calls views]. cbn [fst snd] in *.
  repeat split; assumption.
Qed.

Lemma is_empty_firstn {A} (n : nat) (l : list A) :
  1 <= n -> is_empty (firstn n l) = is_empty l.
Proof. intros H. destruct n; [lia|]. now destruct l. Qed.

Lemma v2_allocate_windows (interval slots : Z) (n : nat) :
  1 <= n ->
  forall monitors rest,
    (forall i mon,
        nth_error monitors i = Some mon ->
        i * n < List.length rest ->
        nth_error (v2_allocate interval slots n rest monitors) i
        = Some (V2.MultiScreenWindow_init (firstn n (skipn (i * n) rest))
                                          interval mon slots))
    /\ (forall i,
          i < List.length (v2_allocate interval slots n rest monitors) ->
          i < List.length monitors /\ i * n < List.length rest).
Proof.
  intros Hn. induction monitors as [|mon monitors IH]; intros rest.
  - split; [intros i m H; now destruct i | cbn; intros i H; lia].
  - destruct (IH (skipn n rest)) as (Hnth & Hlen).
    cbn [v2_allocate]. rewrite is_empty_firstn by exact Hn.
    destruct rest as [|u rest'] eqn:Er.
    + cbn [is_empty app]. rewrite skipn_nil in *. split.
      * intros i m _ H. cbn in H. lia.
      * intros i H. destruct (Hlen i H) as (_ & H'). cbn in H'. lia.
    + cbn [is_empty app]. rewrite <- Er in *. split.
      * intros [|i] m Hi Hb; cbn in Hi.
        -- inversion Hi; subst m. reflexivity.
        -- cbn [nth_error]. rewrite (Hnth i m Hi), skipn_skipn.
           ++ replace (S i * n) with (i * n + n) by lia. reflexivity.
           ++ rewrite length_skipn. lia.
      * intros [|i] H; cbn [List.length] in *.
        -- rewrite Er. cbn. lia.
        -- destruct (Hlen i ltac:(lia)) as (H1 & H2).
           rewrite length_skipn in H2. lia.
Qed.

Lemma v2_allocate_views (interval slots : Z) (n : nat) :
  forall monitors rest,
    flat_map (fun cw => V2.views (snd cw))
             (v2_allocate interval slots n rest monitors)
    = map format_url (firstn (List.length monitors * n) rest)
    /\ loaded_urls (flat_map fst (v2_allocate interval slots n rest monitors))
       = map format_url (firstn (List.length monitors * n) rest).
Proof.
  induction monitors as [|mon monitors IH]; intros rest; [split; reflexivity|].
  destruct (IH (skipn n rest)) as (H1 & H2).
  cbn [v2_allocate List.length].
  replace (S (List.length monitors) * n) with (n + List.length monitors * n) by lia.
  rewrite firstn_add, map_app, !flat_map_app, loaded_urls_app, H1, H2.
  destruct (v2_init_window (firstn n rest) interval slots mon) as (Hc & Hv & _).
  destruct (firstn n rest) as [|u b] eqn:Eb; cbn [is_empty flat_map app];
    [split; reflexivity|].
  rewrite !app_nil_r, Hc, Hv. split; reflexivity.
Qed.

Lemma v2_apply_mode_multi (monitors : list V1.Monitor) (self : V2.MainController) :
  V2.mode self <> "single" ->
  let alloc := v2_allocate (V2.ctl_refresh_interval self)
                 (V2.ctl_slots_per_screen self)
                 (Z.to_nat (V2.ctl_slots_per_screen self))
                 (V2.ctl_urls self) monitors in
  V2.apply_mode monitors self
  = Some (flat_map fst alloc,
          V2.mkController (V2.mode self) (V2.ctl_urls self)
            (V2.ctl_refresh_interval self) (V2.ctl_slots_per_screen self)
            (map (fun cw => V2.MultiW (snd cw)) alloc)).
Proof.
  intros Hm alloc. unfold V2.apply_mode.
  rewrite (proj2 (String.eqb_neq _ _) Hm).
  destruct (v2_fold_place self monitors 0 [] []) as (idx' & E).
  rewrite E. reflexivity.
Qed.

(** X25: the multi mode of [main_update.py] hands out the URLs in
    blocks of [slots_per_screen], as the final revision does, but it builds a
    window only for a monitor that got at least one URL, and a window has one
    web view per URL it took, with no grid and no limit of 16.  So with at
    least one slot: the windows are those of the monitors [i] with
    [i * slots < len(urls)]; window [i] holds and shows the block that starts
    at [i * slots]; and all of the first [monitors * slots] URLs are shown,
    formatted, in order. *)
Theorem v2_multi_mode_shows_each_block_whole
    (monitors : list V1.Monitor) (self : V2.MainController) :
  V2.mode self <> "single" ->
  (1 <= V2.ctl_slots_per_screen self)%Z ->
  let n := Z.to_nat (V2.ctl_slots_per_screen self) in
  exists calls self',
    V2.apply_mode monitors self = Some (calls, self')
    /\ (forall i,
          i < List.length (V2.windows self')
          <-> i < List.length monitors /\ i * n < List.length (V2.ctl_urls self))
    /\ (forall i mon,
          nth_error monitors i = Some mon ->
          i * n < List.length (V2.ctl_urls self) ->
          exists w,
            nth_error (V2.windows self') i = Some (V2.MultiW w)
            /\ V2.window_urls w = firstn n (skipn (i * n) (V2.ctl_urls self))
            /\ V2.views w = map format_url (V2.window_urls w)
            /\ V2.geometry w
               = (V1.mon_x mon, V1.mon_y mon, V1.mon_width mon, V1.mon_height mon))
    /\ flat_map v2_views (V2.windows self')
       = map format_url (firstn (List.length monitors * n) (V2.ctl_urls self))
    /\ loaded_urls calls
       = map format_url (firstn (List.length monitors * n) (V2.ctl_urls self)).
Proof.
  intros Hm Hs n. rewrite (v2_apply_mode_multi monitors self Hm). fold n.
  do 2 eexists. split; [reflexivity|]. cbn [V2.windows].
  destruct (v2_allocate_windows (V2.ctl_refresh_interval self)
              (V2.ctl_slots_per_screen self) n ltac:(lia) monitors
              (V2.ctl_urls self)) as (Hnth & Hlen).
  destruct (v2_allocate_views (V2.ctl_refresh_interval self)
              (V2.ctl_slots_per_screen self) n monitors (V2.ctl_urls self))
    as (Hv & Hc).
  assert (Hwin : forall i mon,
            nth_error monitors i = Some mon ->
            i * n < List.length (V2.ctl_urls self) ->
            nth_error (map (fun cw => V2.MultiW (snd cw))
                         (v2_allocate (V2.ctl_refresh_interval self)
                            (V2.ctl_slots_per_screen self) n
                            (V2.ctl_urls self) monitors)) i
            = Some (V2.MultiW
                      (snd (V2.MultiScreenWindow_init
                              (firstn n (skipn (i * n) (V2.ctl_urls self)))
                              (V2.ctl_refresh_interval self) mon
                              (V2.ctl_slots_per_screen self))))).
  { intros i mon Hi Hb. rewrite nth_error_map, (Hnth i mon Hi Hb). reflexivity. }
  split; [|split; [|split]].
  - intros i. rewrite length_map. split; [apply Hlen|].
    intros (Hi & Hb).
    destruct (nth_error monitors i) as [mon|] eqn:Em;
      [|apply nth_error_None in Em; lia].
    rewrite <- (length_map (fun cw => V2.MultiW (snd cw))).
    apply nth_error_Some. rewrite (Hwin i mon Em Hb). discriminate.
  - intros i mon Hi Hb. eexists. split; [exact (Hwin i mon Hi Hb)|].
    destruct (v2_init_window (firstn n (skipn (i * n) (V2.ctl_urls self)))
                (V2.ctl_refresh_interval self) (V2.ctl_slots_per_screen self) mon)
      as (_ & H2 & H3 & H4).
    rewrite H3. repeat split; assumption.
  - rewrite <- Hv. rewrite flat_map_concat_map, map_map, <- flat_map_concat_map.
    reflexivity.
  - exact Hc.
Qed.

Lemma v2_multi_mode_shows_each_block_whole_witness :
  "multi" <> "single" /\ (1 <= 2)%Z
  /\ exists calls self',
      V2.apply_mode
        [V1.mkMonitor 0 0 1920 1080; V1.mkMonitor 1920 0 1920 1080;
         V1.mkMonitor 3840 0 1920 1080]
        (V2.mkController "multi" ["a"; "b"; "c"] 5000 2 [])
      = Some (calls, self')
      /\ map v2_window_urls (V2.windows self') = [["a"; "b"]; ["c"]].
Proof.
  split; [discriminate|]. split; [lia|].
  destruct (v2_multi_mode_shows_each_block_whole
              [V1.mkMonitor 0 0 1920 1080; V1.mkMonitor 1920 0 1920 1080;
               V1.mkMonitor 3840 0 1920 1080]
              (V2.mkController "multi" ["a"; "b"; "c"] 5000 2 [])
              ltac:(discriminate) ltac:(cbn; lia))
    as (calls & self' & E & _).
  exists calls, self'. split; [exact E|].
  cbv in E. inversion E. reflexivity.
Defined.

(** X26: the single mode of [main_update.py] has no guard for an empty
    URL list either: [apply_mode] then raises [IndexError] out of the
    window's constructor; with at least one URL it builds one window that
    shows the first URL, formatted, with the index moved on to
    [1 mod len(urls)]. *)
Theorem v2_single_mode_needs_a_url
    (monitors : list V1.Monitor) (self : V2.MainController) :
  V2.mode self = "single" ->
  (V2.ctl_urls self = [] -> V2.apply_mode monitors self = None)
  /\ (forall u rest,
        V2.ctl_urls self = u :: rest ->
        V2.apply_mode monitors self
        = Some ([ViewSetUrl 0 (format_url u)],
                V2.mkController "single" (u :: rest)
                  (V2.ctl_refresh_interval self) (V2.ctl_slots_per_screen self)
                  [V2.SingleW
                     (V2.mkSingle (u :: rest) (V2.ctl_refresh_interval self)
                                  (1 mod S (List.length rest))
                                  (Some (format_url u)))])).
Proof.
  intros Hm. unfold V2.apply_mode. rewrite Hm.
  change (String.eqb "single" "single") with true. cbv iota.
  split.
  - intros ->. reflexivity.
  - intros u rest ->. reflexivity.
Qed.

Lemma v2_single_mode_needs_a_url_witness :
  "single" = "single"
  /\ V2.apply_mode [] (V2.mkController "single" [] 5000 1 []) = None.
Proof.
  split; [reflexivity|].
  apply (proj1 (v2_single_mode_needs_a_url []
                  (V2.mkController "single" [] 5000 1 []) eq_refl)).
  reflexivity.
Defined.

(** X27: [load_config] of [main_final.py] does not read the ["urls"]
    key of the earlier revisions: from a file that [save_config] of
    [main_update.py] wrote it keeps the refresh interval, the mode and the
    slots, but the saved URLs are ignored and the three default pages take
    their place. *)
Theorem load_config_ignores_legacy_urls
    (urls : list string) (interval : Z) (m : string) (slots : Z) :
  load_config (Parsed (V2.save_config_data urls interval m slots))
  = mkLoaded (JList (map page_json default_pages)) (JInt interval) (JStr m) (JInt slots)
  /\ typed_config (load_config (Parsed (V2.save_config_data urls interval m slots)))
     = Some (mkConfig default_pages interval m slots).
Proof. split; reflexivity. Qed.

End SecondRevision.
